(** * Authorizer: the authorization pipeline

    A shallow embedding of the Go packages [domain], [service] and
    [dynamodb] of the authorizer, and the properties of its pipeline:
    validation, conversion to minor units, the conditional debit, outcome
    persistence and event publication. *)

From Stdlib Require Import ZArith List Bool Lia.
From Stdlib Require Import Floats.SpecFloat.
From stdpp Require Import gmap strings pretty.

Local Open Scope string_scope.
Local Open Scope Z_scope.

(** ** float64

    Go's [float64] is IEEE 754 binary64: the Standard Library's
    [spec_float] at precision 53 and maximal exponent 1024. *)

Module Float64.

Definition prec : Z := 53.
Definition emax : Z := 1024.

Definition float64 : Type := spec_float.

Definition zero : float64 := S754_zero false.

(** An integer constant, rounded to nearest even as the Go compiler does. *)
Definition of_Z (z : Z) : float64 := binary_normalize prec emax z 0 false.

Definition mul (x y : float64) : float64 := SFmul prec emax x y.
Definition div (x y : float64) : float64 := SFdiv prec emax x y.

Definition ltb (x y : float64) : bool := SFltb x y.
Definition leb (x y : float64) : bool := SFleb x y.
Definition eqb (x y : float64) : bool := SFeqb x y.

Definition is_nan (x : float64) : bool :=
  match x with S754_nan => true | _ => false end.

(** A decimal literal [n / 10^k] (such as 99.90 = 9990 / 10^2): the
    binary64 nearest to the quotient. IEEE division is correctly rounded
    and both operands are exact here, so this is the float the Go compiler
    and [encoding/json] produce for the literal. *)
Definition decimal (n : Z) (k : Z) : float64 := div (of_Z n) (of_Z (10 ^ k)).

Definition min_int : Z := - 2 ^ 63.
Definition max_int : Z := 2 ^ 63 - 1.

Definition in_int (z : Z) : bool := (min_int <=? z) && (z <=? max_int).

(** The integral part of a finite float, rounding toward zero. *)
Definition trunc (x : float64) : option Z :=
  match x with
  | S754_zero _ => Some 0
  | S754_finite s m e =>
      let a := if 0 <=? e then Z.pos m * 2 ^ e else Z.pos m / 2 ^ (- e) in
      Some (if s then - a else a)
  | S754_infinity _ | S754_nan => None
  end.

(** The conversion [int(x)] to Go's 64-bit [int]: truncation toward zero.
    When the value is not representable the conversion still succeeds and
    its result is implementation dependent, here [indef]. *)
Definition to_int (indef : Z) (x : float64) : Z :=
  match trunc x with
  | Some z => if in_int z then z else indef
  | None => indef
  end.

End Float64.

Abbreviation float64 := Float64.float64.

(** ** Go errors

    An [error] value is [nil] or one of: a sentinel made by [errors.New]
    (compared by identity), an error of the AWS SDK (the failed condition
    of a conditional write, or any other failure of the request), or a
    [fmt.Errorf] message, [Errorf_w] when it wraps an error with [%w]. *)

Inductive err : Type :=
  | ErrValorNegativo
  | ErrValorZero
  | ErrClienteInvalido
  | ErrLimiteInsuficiente
  | ErrClienteNaoEncontrado
  | ErrTransacaoDuplicada
  | ConditionalCheckFailedException
  | ErroSDK (msg : string)
  | Errorf (msg : string)
  | Errorf_w (msg : string) (wrapped : err).

Definition error : Type := option err.

Definition nil : error := None.

Definition err_eqb (a b : err) : bool :=
  match a, b with
  | ErrValorNegativo, ErrValorNegativo
  | ErrValorZero, ErrValorZero
  | ErrClienteInvalido, ErrClienteInvalido
  | ErrLimiteInsuficiente, ErrLimiteInsuficiente
  | ErrClienteNaoEncontrado, ErrClienteNaoEncontrado
  | ErrTransacaoDuplicada, ErrTransacaoDuplicada => true
  | _, _ => false
  end.

(** [errors.Is(e, target)] for a sentinel [target]: walks the [%w] chain. *)
Fixpoint errors_Is (e : err) (target : err) : bool :=
  err_eqb e target ||
  match e with
  | Errorf_w _ w => errors_Is w target
  | _ => false
  end.

(** [errors.As(e, &condErr)] with [condErr] a
    [*types.ConditionalCheckFailedException]. *)
Fixpoint errors_As_condErr (e : err) : bool :=
  match e with
  | ConditionalCheckFailedException => true
  | Errorf_w _ w => errors_As_condErr w
  | _ => false
  end.

(** ** Package domain *)

Module domain.

(** A [time.Time] is kept as its Unix seconds. *)
Record Transacao : Type := {
  Transacao_ID : string;
  Transacao_ClienteID : string;
  Transacao_Valor : float64;
  Transacao_Status : string;
  Transacao_Timestamp : Z;
  Transacao_CorrelationID : string
}.

Record Cliente : Type := {
  Cliente_ID : string;
  Cliente_Nome : string;
  Cliente_Email : string;
  Cliente_LimiteCredit : Z;
  Cliente_LimiteAtual : Z
}.

Record TransacaoEvento : Type := {
  Evento_Evento : string;
  Evento_TransacaoID : string;
  Evento_ClienteID : string;
  Evento_Valor : float64;
  Evento_Timestamp : Z;
  Evento_CorrelationID : string
}.

Definition StatusAprovada : string := "APROVADA".
Definition StatusRejeitada : string := "REJEITADA".
Definition StatusPendente : string := "PENDENTE".

Definition EventoTransacaoAprovada : string := "TRANSACAO_APROVADA".
Definition EventoTransacaoRejeitada : string := "TRANSACAO_REJEITADA".

(** [NewTransacao]: the fresh UUID and the clock reading are inputs. *)
Definition NewTransacao (uuid : string) (now : Z)
    (clienteID : string) (valor : float64) (correlationID : string) : Transacao :=
  {| Transacao_ID := uuid;
     Transacao_ClienteID := clienteID;
     Transacao_Valor := valor;
     Transacao_Status := StatusPendente;
     Transacao_Timestamp := now;
     Transacao_CorrelationID := correlationID |}.

Definition Valida (t : Transacao) : error :=
  let cliente := if String.eqb (Transacao_ClienteID t) "" then Some ErrClienteInvalido else nil in
  if Float64.leb (Transacao_Valor t) Float64.zero then
    if Float64.ltb (Transacao_Valor t) Float64.zero then Some ErrValorNegativo
    else if Float64.eqb (Transacao_Valor t) Float64.zero then Some ErrValorZero
    else cliente
  else cliente.

Definition com_status (st : string) (t : Transacao) : Transacao :=
  {| Transacao_ID := Transacao_ID t;
     Transacao_ClienteID := Transacao_ClienteID t;
     Transacao_Valor := Transacao_Valor t;
     Transacao_Status := st;
     Transacao_Timestamp := Transacao_Timestamp t;
     Transacao_CorrelationID := Transacao_CorrelationID t |}.

Definition Aprovar (t : Transacao) : Transacao := com_status StatusAprovada t.

Definition Rejeitar (t : Transacao) : Transacao := com_status StatusRejeitada t.

Definition ToEvento (t : Transacao) : TransacaoEvento :=
  let evento :=
    if String.eqb (Transacao_Status t) StatusAprovada then EventoTransacaoAprovada
    else if String.eqb (Transacao_Status t) StatusRejeitada then EventoTransacaoRejeitada
    else "TRANSACAO_PROCESSADA" in
  {| Evento_Evento := evento;
     Evento_TransacaoID := Transacao_ID t;
     Evento_ClienteID := Transacao_ClienteID t;
     Evento_Valor := Transacao_Valor t;
     Evento_Timestamp := Transacao_Timestamp t;
     Evento_CorrelationID := Transacao_CorrelationID t |}.

End domain.

Import domain.

(** ** Stateful code

    The pipeline talks to a store, a log, a publisher and the observability
    collaborators. A computation threads the state [S] of that environment;
    a Go [error] result is a value of the computation. *)

Definition M (S A : Type) : Type := S -> A * S.

Definition ret {S A : Type} (a : A) : M S A := fun s => (a, s).

Definition bind {S A B : Type} (m : M S A) (k : A -> M S B) : M S B :=
  fun s => let (a, s') := m s in k a s'.

Declare Scope go_scope.
Delimit Scope go_scope with go.

Notation "x <- m ;; k" := (bind m (fun x => k))
  (at level 100, m at next level, right associativity) : go_scope.
Notation "m ;; k" := (bind m (fun _ => k))
  (at level 100, right associativity) : go_scope.

(** The value of a [map[string]interface{}] entry handed to the logger,
    the tracer or the metrics collector. *)
Inductive campo : Type :=
  | CString (s : string)
  | CFloat (f : float64)
  | CError (e : err).

(** The two functions the service starts with [go]. A goroutine holds the
    pointer to the entity; nothing writes to the entity once the goroutine
    is started, so it is given the entity as it is then. *)
Inductive Goroutine : Type :=
  | GoPublicarEvento (t : Transacao)
  | GoPublicarEventoRejeicao (t : Transacao) (motivo : err).

(** *** Ports (package domain, ports.go) *)

Class LimiteRepository (S : Type) : Type := {
  GetCliente : string -> M S (Cliente + err);
  UpdateLimite : string -> Z -> M S error;
  DebitarLimiteAtomica : string -> Z -> M S error
}.

(** [GetByClienteID], the audit query, takes no part in the pipeline and
    is left out. *)
Class TransacaoRepository (S : Type) : Type := {
  Save : Transacao -> M S error;
  GetByID : string -> M S (Transacao + err)
}.

Class EventPublisher (S : Type) : Type := {
  PublishTransacaoAprovada : TransacaoEvento -> M S error;
  PublishTransacaoRejeitada : TransacaoEvento -> M S error
}.

Class MetricsCollector (S : Type) : Type := {
  IncrementTransactionCounter : string -> M S unit;
  RecordTransactionLatency : Z -> M S unit;
  RecordBusinessMetric : string -> float64 -> list (string * string) -> M S unit;
  IncrementErrorCounter : string -> M S unit
}.

Class DistributedTracer (S : Type) : Type := {
  Span : Type;
  StartSpan : string -> M S Span;
  FinishSpan : Span -> error -> M S unit;
  AddTag : Span -> string -> campo -> M S unit
}.

Class Logger (S : Type) : Type := {
  Info : string -> list (string * campo) -> M S unit;
  Error : string -> err -> list (string * campo) -> M S unit;
  Warn : string -> list (string * campo) -> M S unit;
  Debug : string -> list (string * campo) -> M S unit
}.

(** What the service asks of the Go runtime: the clock ([time.Now], in
    clock ticks) and the [go] statement. *)
Class Runtime (S : Type) : Type := {
  time_Now : M S Z;
  go : Goroutine -> M S unit
}.

(** ** Package service *)

Module service.
Section TransacaoService.

Local Open Scope go_scope.

Context {S : Type}.
Context {limiteRepository : LimiteRepository S}.
Context {transacaoRepository : TransacaoRepository S}.
Context {eventPublisher : EventPublisher S}.
Context {metricsCollector : MetricsCollector S}.
Context {tracer : DistributedTracer S}.
Context {logger : Logger S}.
Context {runtime : Runtime S}.

(** The implementation-dependent result of [int(x)] on a float that no
    [int] represents. *)
Variable int_indef : Z.

Definition validarTransacao (transacao : Transacao) : M S error :=
  span <- StartSpan "TransacaoService.validarTransacao" ;;
  r <- match Valida transacao with
       | Some e =>
           Warn "validação de transação falhou"
             [("transacao_id", CString (Transacao_ID transacao)); ("erro", CError e)] ;;
           IncrementErrorCounter "validation_error" ;;
           ret (Some e)
       | None => ret nil
       end ;;
  FinishSpan span nil ;;
  ret r.

(** [int(transacao.Valor * 100)] *)
Definition valorCentavos (transacao : Transacao) : Z :=
  Float64.to_int int_indef (Float64.mul (Transacao_Valor transacao) (Float64.of_Z 100)).

Definition processarLimite (transacao : Transacao) : M S error :=
  span <- StartSpan "TransacaoService.processarLimite" ;;
  e <- DebitarLimiteAtomica (Transacao_ClienteID transacao) (valorCentavos transacao) ;;
  r <- match e with
       | Some e =>
           (if errors_Is e ErrLimiteInsuficiente then
              Warn "limite insuficiente"
                [("transacao_id", CString (Transacao_ID transacao));
                 ("cliente_id", CString (Transacao_ClienteID transacao));
                 ("valor", CFloat (Transacao_Valor transacao))] ;;
              IncrementErrorCounter "insufficient_limit"
            else
              Error "erro ao debitar limite" e
                [("transacao_id", CString (Transacao_ID transacao));
                 ("cliente_id", CString (Transacao_ClienteID transacao))] ;;
              IncrementErrorCounter "limit_operation_error") ;;
           ret (Some e)
       | None => ret nil
       end ;;
  FinishSpan span nil ;;
  ret r.

(** [transacao] is a pointer in the source: the entity after the call is
    returned next to the error. *)
Definition aprovarTransacao (transacao : Transacao) : M S (Transacao * error) :=
  span <- StartSpan "TransacaoService.aprovarTransacao" ;;
  let transacao := Aprovar transacao in
  e <- Save transacao ;;
  r <- match e with
       | Some e =>
           Error "erro ao salvar transação" e
             [("transacao_id", CString (Transacao_ID transacao))] ;;
           IncrementErrorCounter "transaction_save_error" ;;
           ret (Some e)
       | None =>
           go (GoPublicarEvento transacao) ;;
           Info "transação aprovada com sucesso"
             [("transacao_id", CString (Transacao_ID transacao));
              ("cliente_id", CString (Transacao_ClienteID transacao));
              ("valor", CFloat (Transacao_Valor transacao))] ;;
           IncrementTransactionCounter StatusAprovada ;;
           RecordBusinessMetric "transaction_value" (Transacao_Valor transacao)
             [("status", StatusAprovada); ("cliente_id", Transacao_ClienteID transacao)] ;;
           ret nil
       end ;;
  FinishSpan span nil ;;
  ret (transacao, r).

Definition rejeitarTransacao (transacao : Transacao) (motivo : err) : M S (Transacao * error) :=
  span <- StartSpan "TransacaoService.rejeitarTransacao" ;;
  let transacao := Rejeitar transacao in
  e <- Save transacao ;;
  match e with
  | Some e =>
      Error "erro ao salvar transação rejeitada" e
        [("transacao_id", CString (Transacao_ID transacao))]
  | None => ret tt
  end ;;
  go (GoPublicarEventoRejeicao transacao motivo) ;;
  Info "transação rejeitada"
    [("transacao_id", CString (Transacao_ID transacao));
     ("cliente_id", CString (Transacao_ClienteID transacao));
     ("motivo", CError motivo)] ;;
  IncrementTransactionCounter StatusRejeitada ;;
  FinishSpan span nil ;;
  ret (transacao, Some motivo).

Definition AutorizarTransacao (transacao : Transacao) : M S (Transacao * error) :=
  startTime <- time_Now ;;
  span <- StartSpan "TransacaoService.AutorizarTransacao" ;;
  AddTag span "cliente_id" (CString (Transacao_ClienteID transacao)) ;;
  AddTag span "valor" (CFloat (Transacao_Valor transacao)) ;;
  AddTag span "correlation_id" (CString (Transacao_CorrelationID transacao)) ;;
  Info "iniciando autorização de transação"
    [("transacao_id", CString (Transacao_ID transacao));
     ("cliente_id", CString (Transacao_ClienteID transacao));
     ("valor", CFloat (Transacao_Valor transacao));
     ("correlation_id", CString (Transacao_CorrelationID transacao))] ;;
  r <- (e <- validarTransacao transacao ;;
        match e with
        | Some e => rejeitarTransacao transacao e
        | None =>
            e <- processarLimite transacao ;;
            match e with
            | Some e => rejeitarTransacao transacao e
            | None => aprovarTransacao transacao
            end
        end) ;;
  (* the deferred function *)
  fim <- time_Now ;;
  RecordTransactionLatency (fim - startTime) ;;
  FinishSpan span nil ;;
  ret r.

Definition publicarEvento (transacao : Transacao) : M S unit :=
  span <- StartSpan "TransacaoService.publicarEvento" ;;
  let evento := ToEvento transacao in
  e <- PublishTransacaoAprovada evento ;;
  match e with
  | Some e =>
      Error "falha ao publicar evento de transação aprovada" e
        [("transacao_id", CString (Transacao_ID transacao));
         ("evento", CString (Evento_Evento evento))] ;;
      IncrementErrorCounter "event_publish_error"
  | None =>
      Info "evento de transação publicado"
        [("transacao_id", CString (Transacao_ID transacao));
         ("evento", CString (Evento_Evento evento))]
  end ;;
  FinishSpan span nil.

Definition publicarEventoRejeicao (transacao : Transacao) (motivo : err) : M S unit :=
  span <- StartSpan "TransacaoService.publicarEventoRejeicao" ;;
  let evento := ToEvento transacao in
  e <- PublishTransacaoRejeitada evento ;;
  match e with
  | Some e =>
      Error "falha ao publicar evento de transação rejeitada" e
        [("transacao_id", CString (Transacao_ID transacao));
         ("motivo", CError motivo)] ;;
      IncrementErrorCounter "event_publish_error"
  | None => ret tt
  end ;;
  FinishSpan span nil.

(** The body a started goroutine runs. *)
Definition executar (g : Goroutine) : M S unit :=
  match g with
  | GoPublicarEvento t => publicarEvento t
  | GoPublicarEventoRejeicao t motivo => publicarEventoRejeicao t motivo
  end.

End TransacaoService.
End service.

(** ** The environment of a deployment

    The customers table and the transactions table of DynamoDB with the
    clock, and around them the SNS publisher, the output of the
    observability collaborators and the goroutines started so far. *)

Record ClienteItem : Type := {
  ClienteItem_ID : string;
  ClienteItem_Nome : string;
  ClienteItem_Email : string;
  ClienteItem_LimiteCredit : Z;
  ClienteItem_LimiteAtual : Z;
  ClienteItem_CreatedAt : string;
  ClienteItem_UpdatedAt : string
}.

Record TransacaoItem : Type := {
  TransacaoItem_ID : string;
  TransacaoItem_ClienteID : string;
  TransacaoItem_Valor : float64;
  TransacaoItem_Status : string;
  TransacaoItem_Timestamp : Z;
  TransacaoItem_CorrelationID : string;
  TransacaoItem_TTL : Z
}.

(** The two tables. A number attribute of DynamoDB is an unbounded [Z]
    here (the store computes on decimal numbers of 38 digits). *)
Record Tabelas : Type := {
  clientes : gmap string ClienteItem;
  transacoes : gmap string TransacaoItem
}.

(** What the environment does when the next request is sent: the writes
    other requests commit before this one is evaluated, and whether this
    request fails before it reaches the table. *)
Record Passo : Type := {
  concorrentes : Tabelas -> Tabelas;
  falha : option string
}.

(** The store as the process meets it: the tables, what the environment
    does at each coming request, and the clock (Unix seconds). *)
Record Banco : Type := {
  tabelas : Tabelas;
  roteiro : list Passo;
  agora : Z
}.

(** One line written by the logger, the tracer or the metrics collector. *)
Inductive Registro : Type :=
  | RLog (nivel msg : string) (e : error) (campos : list (string * campo))
  | RSpanStart (nome : string)
  | RSpanFinish (nome : string) (e : error)
  | RTag (nome chave : string) (valor : campo)
  | RCounter (nome rotulo : string)
  | RLatency (duracao : Z)
  | RBusiness (nome : string) (valor : float64) (rotulos : list (string * string)).

Record World : Type := {
  banco : Banco;
  falha_publicacao : TransacaoEvento -> option string;
  publicados : list TransacaoEvento;
  saida : list Registro;
  pendentes : list Goroutine
}.

Definition com_tabelas (tb : Tabelas) (r : list Passo) (b : Banco) : Banco :=
  {| tabelas := tb; roteiro := r; agora := agora b |}.

Definition com_clientes (c : gmap string ClienteItem) (tb : Tabelas) : Tabelas :=
  {| clientes := c; transacoes := transacoes tb |}.

Definition com_transacoes (t : gmap string TransacaoItem) (tb : Tabelas) : Tabelas :=
  {| clientes := clientes tb; transacoes := t |}.

Definition com_falha_publicacao (f : TransacaoEvento -> option string) (w : World) : World :=
  {| banco := banco w; falha_publicacao := f; publicados := publicados w;
     saida := saida w; pendentes := pendentes w |}.

(** A computation on the store, run in the world. *)
Definition no_banco {A : Type} (m : M Banco A) : M World A := fun w =>
  let (a, b) := m (banco w) in
  (a, {| banco := b; falha_publicacao := falha_publicacao w;
         publicados := publicados w; saida := saida w; pendentes := pendentes w |}).

Definition registrar (r : Registro) : M World unit := fun w =>
  (tt, {| banco := banco w; falha_publicacao := falha_publicacao w;
          publicados := publicados w; saida := saida w ++ [r];
          pendentes := pendentes w |}).

Definition publicar (ev : TransacaoEvento) : M World error := fun w =>
  match falha_publicacao w ev with
  | Some msg => (Some (ErroSDK msg), w)
  | None =>
      (nil, {| banco := banco w; falha_publicacao := falha_publicacao w;
               publicados := publicados w ++ [ev];
               saida := saida w; pendentes := pendentes w |})
  end.

Definition iniciar (g : Goroutine) : M World unit := fun w =>
  (tt, {| banco := banco w; falha_publicacao := falha_publicacao w;
          publicados := publicados w; saida := saida w;
          pendentes := pendentes w ++ [g] |}).

(** The tables as the next request sees them. *)
Definition vista (b : Banco) : Tabelas :=
  match roteiro b with
  | [] => tabelas b
  | p :: _ => concorrentes p (tabelas b)
  end.

(** Whether the next request reaches the table. *)
Definition responde (b : Banco) : bool :=
  match roteiro b with
  | [] => true
  | p :: _ => match falha p with Some _ => false | None => true end
  end.

(** The store after the environment alone has moved [n] steps: no request
    of this process is applied. *)
Fixpoint so_ambiente (n : nat) (b : Banco) : Banco :=
  match n with
  | O => b
  | S n' => so_ambiente n' (com_tabelas (vista b) (tail (roteiro b)) b)
  end.

(** One request of the SDK client: [op] is evaluated atomically on the
    tables, after the writes of the concurrent requests of this step. *)
Definition pedido {A : Type} (op : Tabelas -> (A + err) * Tabelas) : M Banco (A + err) :=
  fun b =>
    match roteiro b with
    | [] => let (r, tb) := op (tabelas b) in (r, com_tabelas tb [] b)
    | p :: resto =>
        let tb0 := concorrentes p (tabelas b) in
        match falha p with
        | Some msg => (inr (ErroSDK msg), com_tabelas tb0 resto b)
        | None => let (r, tb) := op tb0 in (r, com_tabelas tb resto b)
        end
    end.

(** ** Package dynamodb (repository) *)

Module dynamodb.

Local Open Scope go_scope.

Definition wrap64 (z : Z) : Z := (z + 2 ^ 63) mod 2 ^ 64 - 2 ^ 63.

(** [fmt.Sprintf("%d", n)] *)
Definition Sprintf_d (n : Z) : string := pretty n.

(** [System.currentTimeMillis()]: [time.Now().Unix() * 1000] *)
Definition currentTimeMillis : M Banco Z := fun b => (wrap64 (agora b * 1000), b).

(** *** The requests, as the store evaluates them *)

(** [GetItem] on the customers table, with [ConsistentRead]. *)
Definition GetItem_cliente (id : string) (tb : Tabelas) : (option ClienteItem + err) * Tabelas :=
  (inl (clientes tb !! id), tb).

Definition set_limite_atual (novo : Z) (now : string) (c : ClienteItem) : ClienteItem :=
  {| ClienteItem_ID := ClienteItem_ID c;
     ClienteItem_Nome := ClienteItem_Nome c;
     ClienteItem_Email := ClienteItem_Email c;
     ClienteItem_LimiteCredit := ClienteItem_LimiteCredit c;
     ClienteItem_LimiteAtual := novo;
     ClienteItem_CreatedAt := ClienteItem_CreatedAt c;
     ClienteItem_UpdatedAt := now |}.

(** [UpdateItem] with
    [SET limite_atual = :novo_limite, updated_at = :now] under the
    condition [attribute_exists(id)]. *)
Definition UpdateItem_limite (id : string) (novo_limite : Z) (now : string)
    (tb : Tabelas) : (unit + err) * Tabelas :=
  match clientes tb !! id with
  | Some c =>
      (inl tt, com_clientes (<[id := set_limite_atual novo_limite now c]> (clientes tb)) tb)
  | None => (inr ConditionalCheckFailedException, tb)
  end.

(** [UpdateItem] with
    [SET limite_atual = limite_atual - :valor, updated_at = :now] under the
    condition
    [attribute_exists(id) AND limite_atual >= :valor AND (limite_atual - :valor) >= :zero],
    the three conjuncts read as the arithmetic they write; the answer
    carries the new value ([UPDATED_NEW]). *)
Definition UpdateItem_debito (id : string) (valor : Z) (now : string) (zero : Z)
    (tb : Tabelas) : (Z + err) * Tabelas :=
  match clientes tb !! id with
  | Some c =>
      if (valor <=? ClienteItem_LimiteAtual c) && (zero <=? ClienteItem_LimiteAtual c - valor)
      then
        let novo := ClienteItem_LimiteAtual c - valor in
        (inl novo, com_clientes (<[id := set_limite_atual novo now c]> (clientes tb)) tb)
      else (inr ConditionalCheckFailedException, tb)
  | None => (inr ConditionalCheckFailedException, tb)
  end.

(** [PutItem] on the transactions table under [attribute_not_exists(id)]. *)
Definition PutItem_transacao (item : TransacaoItem) (tb : Tabelas) : (unit + err) * Tabelas :=
  match transacoes tb !! TransacaoItem_ID item with
  | Some _ => (inr ConditionalCheckFailedException, tb)
  | None =>
      (inl tt, com_transacoes (<[TransacaoItem_ID item := item]> (transacoes tb)) tb)
  end.

Definition GetItem_transacao (id : string) (tb : Tabelas) : (option TransacaoItem + err) * Tabelas :=
  (inl (transacoes tb !! id), tb).

(** [attributevalue.UnmarshalMap] into a [ClienteItem]: a number that no
    [int] holds is an error. *)
Definition UnmarshalMap_cliente (c : ClienteItem) : ClienteItem + err :=
  if Float64.in_int (ClienteItem_LimiteCredit c) && Float64.in_int (ClienteItem_LimiteAtual c)
  then inl c
  else inr (ErroSDK "unmarshal failed, number overflow").

(** *** LimiteRepository *)

Definition itemToCliente (item : ClienteItem) : Cliente :=
  {| Cliente_ID := ClienteItem_ID item;
     Cliente_Nome := ClienteItem_Nome item;
     Cliente_Email := ClienteItem_Email item;
     Cliente_LimiteCredit := ClienteItem_LimiteCredit item;
     Cliente_LimiteAtual := ClienteItem_LimiteAtual item |}.

Definition GetCliente (clienteID : string) : M Banco (Cliente + err) :=
  result <- pedido (GetItem_cliente clienteID) ;;
  match result with
  | inr e => ret (inr (Errorf_w (String.append "erro ao buscar cliente " clienteID) e))
  | inl None => ret (inr ErrClienteNaoEncontrado)
  | inl (Some av) =>
      match UnmarshalMap_cliente av with
      | inr e => ret (inr (Errorf_w "erro ao deserializar cliente" e))
      | inl item => ret (inl (itemToCliente item))
      end
  end.

Definition UpdateLimite (clienteID : string) (novoLimite : Z) : M Banco error :=
  now <- currentTimeMillis ;;
  result <- pedido (UpdateItem_limite clienteID novoLimite (Sprintf_d now)) ;;
  match result with
  | inr e =>
      if errors_As_condErr e then ret (Some ErrClienteNaoEncontrado)
      else ret (Some (Errorf_w
                        (String.append "erro ao atualizar limite do cliente " clienteID) e))
  | inl _ => ret nil
  end.

Definition DebitarLimiteAtomica (clienteID : string) (valor : Z) : M Banco error :=
  now <- currentTimeMillis ;;
  result <- pedido (UpdateItem_debito clienteID valor (Sprintf_d now) 0) ;;
  match result with
  | inr e =>
      if errors_As_condErr e then
        r <- GetCliente clienteID ;;
        match r with
        | inr getErr =>
            if errors_Is getErr ErrClienteNaoEncontrado then ret (Some ErrClienteNaoEncontrado)
            else ret (Some ErrLimiteInsuficiente)
        | inl cliente =>
            if Cliente_LimiteAtual cliente <? valor then ret (Some ErrLimiteInsuficiente)
            else ret (Some (Errorf_w
                              (String.append "operação atômica falhou para cliente " clienteID) e))
        end
      else ret (Some (Errorf_w
                        (String.append "erro ao debitar limite do cliente " clienteID) e))
  | inl _ => ret nil
  end.

(** *** TransacaoRepository *)

(** The item [Save] builds; [attributevalue.MarshalMap] does not fail on
    its field types. *)
Definition transacaoToItem (transacao : Transacao) : TransacaoItem :=
  let ttl := wrap64 (Transacao_Timestamp transacao + 90 * 24 * 60 * 60) in
  {| TransacaoItem_ID := Transacao_ID transacao;
     TransacaoItem_ClienteID := Transacao_ClienteID transacao;
     TransacaoItem_Valor := Transacao_Valor transacao;
     TransacaoItem_Status := Transacao_Status transacao;
     TransacaoItem_Timestamp := Transacao_Timestamp transacao;
     TransacaoItem_CorrelationID := Transacao_CorrelationID transacao;
     TransacaoItem_TTL := ttl |}.

Definition Save (transacao : Transacao) : M Banco error :=
  let item := transacaoToItem transacao in
  result <- pedido (PutItem_transacao item) ;;
  match result with
  | inr e =>
      if errors_As_condErr e then
        ret (Some (Errorf (String.append "transação "
                             (String.append (Transacao_ID transacao) " já existe"))))
      else ret (Some (Errorf_w "erro ao salvar transação" e))
  | inl _ => ret nil
  end.

(** The timestamp is not parsed back: the entity gets the zero time. *)
Definition itemToTransacao (item : TransacaoItem) : Transacao :=
  {| Transacao_ID := TransacaoItem_ID item;
     Transacao_ClienteID := TransacaoItem_ClienteID item;
     Transacao_Valor := TransacaoItem_Valor item;
     Transacao_Status := TransacaoItem_Status item;
     Transacao_Timestamp := 0;
     Transacao_CorrelationID := TransacaoItem_CorrelationID item |}.

Definition GetByID (transacaoID : string) : M Banco (Transacao + err) :=
  result <- pedido (GetItem_transacao transacaoID) ;;
  match result with
  | inr e => ret (inr (Errorf_w (String.append "erro ao buscar transação " transacaoID) e))
  | inl None =>
      ret (inr (Errorf (String.append "transação "
                          (String.append transacaoID " não encontrada"))))
  | inl (Some item) => ret (inl (itemToTransacao item))
  end.

End dynamodb.

(** ** The deployment (cmd/authorizer): the ports over [World] *)

#[export] Instance limiteRepository : LimiteRepository World := {|
  GetCliente clienteID := no_banco (dynamodb.GetCliente clienteID);
  UpdateLimite clienteID novoLimite := no_banco (dynamodb.UpdateLimite clienteID novoLimite);
  DebitarLimiteAtomica clienteID valor := no_banco (dynamodb.DebitarLimiteAtomica clienteID valor)
|}.

#[export] Instance transacaoRepository : TransacaoRepository World := {|
  Save transacao := no_banco (dynamodb.Save transacao);
  GetByID transacaoID := no_banco (dynamodb.GetByID transacaoID)
|}.

#[export] Instance eventPublisher : EventPublisher World := {|
  PublishTransacaoAprovada := publicar;
  PublishTransacaoRejeitada := publicar
|}.

#[export] Instance metricsCollector : MetricsCollector World := {|
  IncrementTransactionCounter status := registrar (RCounter "transaction_count" status);
  RecordTransactionLatency duration := registrar (RLatency duration);
  RecordBusinessMetric metricName value labels := registrar (RBusiness metricName value labels);
  IncrementErrorCounter errorType := registrar (RCounter "error_count" errorType)
|}.

#[export] Instance simpleTracer : DistributedTracer World := {|
  Span := string;
  StartSpan operationName := bind (registrar (RSpanStart operationName)) (fun _ => ret operationName);
  FinishSpan span e := registrar (RSpanFinish span e);
  AddTag span key value := registrar (RTag span key value)
|}.

#[export] Instance structuredLogger : Logger World := {|
  Info msg fields := registrar (RLog "INFO" msg nil fields);
  Error msg e fields := registrar (RLog "ERROR" msg (Some e) fields);
  Warn msg fields := registrar (RLog "WARN" msg nil fields);
  Debug msg fields := registrar (RLog "DEBUG" msg nil fields)
|}.

#[export] Instance goRuntime : Runtime World := {|
  time_Now := fun w => (agora (banco w), w);
  go := iniciar
|}.

(** The goroutines started so far run to completion, in the order they
    were started. *)
Fixpoint executar_todas (gs : list Goroutine) : M World unit :=
  match gs with
  | [] => ret tt
  | g :: resto => bind (service.executar g) (fun _ => executar_todas resto)
  end.

Definition esvaziar (w : World) : World :=
  {| banco := banco w; falha_publicacao := falha_publicacao w;
     publicados := publicados w; saida := saida w; pendentes := [] |}.

(** A request from start to end: the synchronous call, then the
    goroutines it started. *)
Definition atender (int_indef : Z) (transacao : Transacao) : M World (Transacao * error) :=
  fun w =>
    let (r, w1) := service.AutorizarTransacao int_indef transacao w in
    let (_, w2) := executar_todas (pendentes w1) (esvaziar w1) in
    (r, w2).

(** ** Package dynamodb: provisioning and serial use *)

Module provisionamento.

Local Open Scope go_scope.

(** [PutItem] on the customers table under [attribute_not_exists(id)]. *)
Definition PutItem_cliente (item : ClienteItem) (tb : Tabelas) : (unit + err) * Tabelas :=
  match clientes tb !! ClienteItem_ID item with
  | Some _ => (inr ConditionalCheckFailedException, tb)
  | None => (inl tt, com_clientes (<[ClienteItem_ID item := item]> (clientes tb)) tb)
  end.

(** [CreateCliente]. The two times of the entity, which [Cliente] does not
    carry here, come beside it as [Format] renders them. *)
Definition CreateCliente (cliente : Cliente) (createdAt updatedAt : string) : M Banco error :=
  let item :=
    {| ClienteItem_ID := Cliente_ID cliente;
       ClienteItem_Nome := Cliente_Nome cliente;
       ClienteItem_Email := Cliente_Email cliente;
       ClienteItem_LimiteCredit := Cliente_LimiteCredit cliente;
       ClienteItem_LimiteAtual := Cliente_LimiteAtual cliente;
       ClienteItem_CreatedAt := createdAt;
       ClienteItem_UpdatedAt := updatedAt |} in
  result <- pedido (PutItem_cliente item) ;;
  match result with
  | inr e =>
      if errors_As_condErr e then
        ret (Some (Errorf (String.append "cliente "
                             (String.append (Cliente_ID cliente) " já existe"))))
      else ret (Some (Errorf_w "erro ao criar cliente" e))
  | inl _ => ret nil
  end.

(** Debits of one customer issued one after the other, each evaluated by
    the store before the next is sent. *)
Fixpoint debitar_todos (clienteID : string) (valores : list Z) : M Banco (list error) :=
  match valores with
  | [] => ret []
  | valor :: resto =>
      e <- dynamodb.DebitarLimiteAtomica clienteID valor ;;
      es <- debitar_todos clienteID resto ;;
      ret (e :: es)
  end.

End provisionamento.

(** ** Package awslambda (handler) *)

Module awslambda.

Definition StatusBadRequest : Z := 400.
Definition StatusNotFound : Z := 404.
Definition StatusUnprocessableEntity : Z := 422.
Definition StatusInternalServerError : Z := 500.

(** [categorizeError]: the cases compare the error itself with a
    sentinel ([err == domain.Err...]); nothing is unwrapped. *)
Definition categorizeError (e : err) : Z * string * string :=
  if err_eqb e ErrLimiteInsuficiente then
    (StatusUnprocessableEntity, "insufficient_limit", "Limite insuficiente")
  else if err_eqb e ErrClienteNaoEncontrado then
    (StatusNotFound, "client_not_found", "Cliente não encontrado")
  else if err_eqb e ErrValorNegativo || err_eqb e ErrValorZero then
    (StatusBadRequest, "invalid_amount", "Valor inválido")
  else if err_eqb e ErrClienteInvalido then
    (StatusBadRequest, "invalid_client", "Cliente inválido")
  else (StatusInternalServerError, "internal_error", "Erro interno do servidor").



End awslambda.

(** The store has nothing scheduled: no concurrent writer and no failing
    request from here on. *)
Definition sossegado (b : Banco) : Prop := roteiro b = [].

(** ** Sample data: customer C1, ceiling 100.00, balance 100.00 *)

Module exemplo.

Definition c1 : ClienteItem :=
  {| ClienteItem_ID := "C1"; ClienteItem_Nome := "Cliente Um";
     ClienteItem_Email := "c1@example.com";
     ClienteItem_LimiteCredit := 10000; ClienteItem_LimiteAtual := 10000;
     ClienteItem_CreatedAt := "2024-01-01T00:00:00Z";
     ClienteItem_UpdatedAt := "2024-01-01T00:00:00Z" |}.

Definition tabelas0 : Tabelas := {| clientes := {[ "C1" := c1 ]}; transacoes := ∅ |}.

(** A quiet environment: no concurrent writer, no failing request. *)
Definition banco0 : Banco := {| tabelas := tabelas0; roteiro := []; agora := 1700000000 |}.

Definition mundo (b : Banco) : World :=
  {| banco := b; falha_publicacao := fun _ => None; publicados := [];
     saida := []; pendentes := [] |}.

Definition mundo0 : World := mundo banco0.

(** The next request fails before it reaches the table. *)
Definition indisponivel : Passo :=
  {| concorrentes := fun tb => tb; falha := Some "RequestTimeout" |}.

Definition banco_indisponivel : Banco :=
  {| tabelas := tabelas0; roteiro := [indisponivel]; agora := 1700000000 |}.

(** Another request restores the balance of C1 to [saldo] before the
    request of this step is evaluated. *)
Definition credito_concorrente (saldo : Z) : Passo :=
  {| concorrentes := fun tb =>
       com_clientes (<["C1" := dynamodb.set_limite_atual saldo "1700000000000" c1]> (clientes tb)) tb;
     falha := None |}.

Definition quieto : Passo := {| concorrentes := fun tb => tb; falha := None |}.

(** The balance is 10 when the debit is evaluated and 10000 again when
    the record is read back. *)
Definition banco_corrida : Banco :=
  {| tabelas :=
       com_clientes (<["C1" := dynamodb.set_limite_atual 10 "1700000000000" c1]> ∅) tabelas0;
     roteiro := [quieto; credito_concorrente 10000];
     agora := 1700000000 |}.

(** 99.90, 19.99 and 10.00 as the JSON decoder reads them. *)
Definition v_99_90 : float64 := Float64.decimal 9990 2.
Definition v_19_99 : float64 := Float64.decimal 1999 2.

Definition t_99_90 : Transacao := NewTransacao "tx-1" 1700000000 "C1" v_99_90 "corr-1".
Definition t_19_99 : Transacao := NewTransacao "tx-2" 1700000000 "C1" v_19_99 "corr-2".
Definition t_10_00 : Transacao :=
  NewTransacao "tx-3" 1700000000 "C1" (Float64.decimal 1000 2) "corr-3".

(** The publisher refuses every event. *)
Definition mundo_sem_publicador (b : Banco) : World :=
  com_falha_publicacao (fun _ => Some "topic unavailable") (mundo b).

End exemplo.

(** ** The properties as the specification words them *)

(** The record of [id] exists with a balance of at least [valor]. *)
Definition saldo_suficiente (tb : Tabelas) (id : string) (valor : Z) : Prop :=
  exists c, clientes tb !! id = Some c /\ valor <= ClienteItem_LimiteAtual c.

(** 0 <= available_balance <= credit_ceiling for the record of [id]. *)
Definition invariante (tb : Tabelas) (id : string) : Prop :=
  forall c, clientes tb !! id = Some c ->
    0 <= ClienteItem_LimiteAtual c <= ClienteItem_LimiteCredit c.

(** What the debit answers once the store has refused the condition. *)
Definition diagnostico (id : string) (valor : Z) (b1 : Banco) : err :=
  if responde b1 then
    match clientes (vista b1) !! id with
    | None => ErrClienteNaoEncontrado
    | Some c =>
        if Float64.in_int (ClienteItem_LimiteCredit c) && Float64.in_int (ClienteItem_LimiteAtual c)
        then
          if ClienteItem_LimiteAtual c <? valor then ErrLimiteInsuficiente
          else Errorf_w (String.append "operação atômica falhou para cliente " id)
                 ConditionalCheckFailedException
        else ErrLimiteInsuficiente
    end
  else ErrLimiteInsuficiente.

(** C4 as worded: once the store has refused the condition and the record
    is read back (from the store [b1] the environment has moved to), the
    debit answers CustomerNotFound for an absent record and
    InsufficientBalance for a present one, whether or not its balance
    covers the amount. *)
Definition releitura_conservadora : Prop :=
  forall (id : string) (valor : Z) (b : Banco),
    responde b = true ->
    ~ saldo_suficiente (vista b) id valor ->
    let b1 := so_ambiente 1 b in
    responde b1 = true ->
    let r := fst (dynamodb.DebitarLimiteAtomica id valor b) in
    (clientes (vista b1) !! id = None -> r = Some ErrClienteNaoEncontrado) /\
    (forall c, clientes (vista b1) !! id = Some c ->
               ClienteItem_LimiteAtual c < valor -> r = Some ErrLimiteInsuficiente) /\
    (forall c, clientes (vista b1) !! id = Some c ->
               valor <= ClienteItem_LimiteAtual c -> r = Some ErrLimiteInsuficiente).

(** C6 as worded: a successful debit and a successful limit update both
    leave the record within 0 <= available_balance <= credit_ceiling (the
    record being within these bounds when the request is evaluated). *)
Definition invariante_apos_mutacao : Prop :=
  forall (id : string) (valor : Z) (b : Banco),
    invariante (vista b) id ->
    (fst (dynamodb.DebitarLimiteAtomica id valor b) = nil ->
     invariante (tabelas (snd (dynamodb.DebitarLimiteAtomica id valor b))) id) /\
    (fst (dynamodb.UpdateLimite id valor b) = nil ->
     invariante (tabelas (snd (dynamodb.UpdateLimite id valor b))) id).

(** C3 as worded: when the debit fails with an error that is neither
    InsufficientBalance nor CustomerNotFound, the orchestrator surfaces an
    error, the entity is not marked Rejected and the log gets no record of
    it. *)
Definition indisponivel_sem_registro : Prop :=
  forall (int_indef : Z) (t : Transacao) (w : World) (e : err),
    Valida t = nil ->
    fst (dynamodb.DebitarLimiteAtomica (Transacao_ClienteID t)
           (service.valorCentavos int_indef t) (banco w)) = Some e ->
    e <> ErrLimiteInsuficiente ->
    e <> ErrClienteNaoEncontrado ->
    let r := service.AutorizarTransacao int_indef t w in
    snd (fst r) <> nil /\
    Transacao_Status (fst (fst r)) <> StatusRejeitada /\
    transacoes (tabelas (banco (snd r))) !! Transacao_ID t =
      transacoes (tabelas (banco w)) !! Transacao_ID t.

(** Unfolds the service down to the requests on the store. *)
Ltac desdobrar :=
  unfold service.AutorizarTransacao, service.validarTransacao, service.processarLimite,
    service.rejeitarTransacao, service.aprovarTransacao, service.publicarEvento,
    service.publicarEventoRejeicao;
  cbn -[dynamodb.DebitarLimiteAtomica dynamodb.Save service.valorCentavos ToEvento];
  unfold bind, no_banco, registrar, iniciar, ret;
  cbn -[dynamodb.DebitarLimiteAtomica dynamodb.Save service.valorCentavos ToEvento].

(** One step through a computation over abstract ports: names the result
    of the innermost call or test that [H] depends on. *)
Ltac atomico x :=
  lazymatch x with
  | context [let (_, _) := _ in _] => fail
  | context [match _ with Some _ => _ | None => _ end] => fail
  | context [if _ then _ else _] => fail
  | _ => idtac
  end.

Ltac passo H :=
  match type of H with
  | context [let (_, _) := ?x in _] => atomico x; destruct x eqn:?
  | context [match ?x with Some _ => _ | None => _ end] => atomico x; destruct x eqn:?
  | context [if ?x then _ else _] => atomico x; destruct x eqn:?
  end.

(** * Properties *)

(** ** Validation *)

Lemma float_tricotomia (v : float64) :
  Float64.is_nan v = false ->
  Float64.ltb Float64.zero v = negb (Float64.ltb v Float64.zero) && negb (Float64.eqb v Float64.zero).
Proof. destruct v as [s|s| |s m e]; try destruct s; intros H; try discriminate H; reflexivity. Qed.

Lemma float_leb_zero (v : float64) :
  Float64.leb v Float64.zero = Float64.ltb v Float64.zero || Float64.eqb v Float64.zero.
Proof. destruct v as [s|s| |s m e]; try destruct s; reflexivity. Qed.

Lemma Valida_sequencia (t : Transacao) :
  Valida t =
    if Float64.ltb (Transacao_Valor t) Float64.zero then Some ErrValorNegativo
    else if Float64.eqb (Transacao_Valor t) Float64.zero then Some ErrValorZero
    else if String.eqb (Transacao_ClienteID t) "" then Some ErrClienteInvalido
    else None.
Proof.
  unfold Valida. rewrite float_leb_zero.
  destruct (Float64.ltb _ _); [reflexivity|].
  destruct (Float64.eqb _ _); reflexivity.
Qed.

(** C7: [Valida] answers [ErrValorNegativo] for a negative amount,
    [ErrValorZero] for a zero amount (whatever the customer id in both
    cases: the amount is checked first), [ErrClienteInvalido] for a
    positive amount with an empty customer id, and [nil] for a positive
    amount with a customer id. Every amount that is a number is negative,
    zero or positive; an amount that is not a number passes both amount
    checks and meets the customer check like a positive one. [Valida] is a
    function of the entity alone. *)
Theorem Valida_ordem (t : Transacao) :
  let v := Transacao_Valor t in
  (Float64.ltb v Float64.zero = true -> Valida t = Some ErrValorNegativo) /\
  (Float64.eqb v Float64.zero = true -> Valida t = Some ErrValorZero) /\
  (Float64.ltb Float64.zero v = true -> Transacao_ClienteID t = "" ->
     Valida t = Some ErrClienteInvalido) /\
  (Float64.ltb Float64.zero v = true -> Transacao_ClienteID t <> "" -> Valida t = nil) /\
  (Float64.is_nan v = false ->
     Float64.ltb v Float64.zero || Float64.eqb v Float64.zero || Float64.ltb Float64.zero v = true) /\
  (Float64.is_nan v = true ->
     Valida t = if String.eqb (Transacao_ClienteID t) "" then Some ErrClienteInvalido else nil).
Proof.
  intros v. rewrite Valida_sequencia. fold v.
  repeat split.
  - intros ->. reflexivity.
  - intros Hz. destruct v as [s|s| |s m e]; try destruct s; try discriminate Hz; reflexivity.
  - intros Hp Hid.
    destruct v as [s|s| |s m e]; try destruct s; try discriminate Hp;
      rewrite Hid; reflexivity.
  - intros Hp Hid. apply String.eqb_neq in Hid.
    destruct v as [s|s| |s m e]; try destruct s; try discriminate Hp;
      cbn; rewrite Hid; reflexivity.
  - intros Hn. rewrite (float_tricotomia v Hn).
    destruct (Float64.ltb v Float64.zero), (Float64.eqb v Float64.zero); reflexivity.
  - intros Hn. destruct v; try discriminate Hn. reflexivity.
Qed.

Example Valida_menos_cinco :
  Valida (NewTransacao "tx" 0 "" (Float64.of_Z (-5)) "corr") = Some ErrValorNegativo.
Proof. reflexivity. Qed.

Example Valida_zero :
  Valida (NewTransacao "tx" 0 "C1" (Float64.of_Z 0) "corr") = Some ErrValorZero.
Proof. reflexivity. Qed.

Example Valida_dez_sem_cliente :
  Valida (NewTransacao "tx" 0 "" (Float64.of_Z 10) "corr") = Some ErrClienteInvalido.
Proof. reflexivity. Qed.

Example Valida_99_90 : Valida exemplo.t_99_90 = nil.
Proof. vm_compute. reflexivity. Qed.

(** ** Events *)

(** C10: for a transaction whose status is neither APROVADA nor REJEITADA,
    [ToEvento] gives the event type "TRANSACAO_PROCESSADA", which is
    neither of the two declared event types, and copies the id, the
    customer id, the amount, the timestamp and the correlation id. *)
Theorem ToEvento_outro_status (t : Transacao) :
  Transacao_Status t <> StatusAprovada ->
  Transacao_Status t <> StatusRejeitada ->
  ToEvento t =
    {| Evento_Evento := "TRANSACAO_PROCESSADA";
       Evento_TransacaoID := Transacao_ID t;
       Evento_ClienteID := Transacao_ClienteID t;
       Evento_Valor := Transacao_Valor t;
       Evento_Timestamp := Transacao_Timestamp t;
       Evento_CorrelationID := Transacao_CorrelationID t |} /\
  Evento_Evento (ToEvento t) <> EventoTransacaoAprovada /\
  Evento_Evento (ToEvento t) <> EventoTransacaoRejeitada.
Proof.
  intros Ha Hr. unfold ToEvento.
  apply String.eqb_neq in Ha. apply String.eqb_neq in Hr.
  rewrite Ha, Hr. cbn. repeat split; discriminate.
Qed.

(** A pending transaction. *)
Lemma ToEvento_pendente :
  Transacao_Status exemplo.t_99_90 = StatusPendente /\
  Evento_Evento (ToEvento exemplo.t_99_90) = "TRANSACAO_PROCESSADA" /\
  Evento_TransacaoID (ToEvento exemplo.t_99_90) = "tx-1".
Proof.
  destruct (ToEvento_outro_status exemplo.t_99_90) as [H _].
  - discriminate.
  - discriminate.
  - rewrite H. repeat split.
Defined.

(** ** Conversion to minor units *)

Example valorCentavos_99_90 (int_indef : Z) :
  service.valorCentavos int_indef exemplo.t_99_90 = 9990.
Proof. vm_compute. reflexivity. Qed.

(** C8, at the amount 19.99: the product [19.99 * 100] is the float just
    below 1999 and [int] truncates it, so the debit is asked for 1998
    minor units, not 1999, whatever the platform; the balance 10000 goes
    to 8002 and the transaction is approved. *)
Theorem valorCentavos_19_99_trunca (int_indef : Z) :
  service.valorCentavos int_indef exemplo.t_19_99 = 1998 /\
  Float64.ltb (Float64.mul exemplo.v_19_99 (Float64.of_Z 100)) (Float64.of_Z 1999) = true /\
  (let r := atender int_indef exemplo.t_19_99 exemplo.mundo0 in
   snd (fst r) = nil /\
   ClienteItem_LimiteAtual <$> (clientes (tabelas (banco (snd r))) !! "C1") = Some 8002).
Proof. vm_compute. repeat split. Qed.

(** ** The atomic debit *)

Lemma so_ambiente_1 (b : Banco) :
  so_ambiente 1 b = com_tabelas (vista b) (tail (roteiro b)) b.
Proof. reflexivity. Qed.

Lemma pedido_falha {A : Type} (op : Tabelas -> (A + err) * Tabelas) (b : Banco) :
  responde b = false ->
  exists msg, pedido op b = (inr (ErroSDK msg), so_ambiente 1 b).
Proof.
  unfold responde, pedido, so_ambiente, vista. destruct (roteiro b) as [|p resto]; [discriminate|].
  destruct (falha p) as [msg|]; [|discriminate]. intros _. exists msg. reflexivity.
Qed.

Lemma pedido_responde {A : Type} (op : Tabelas -> (A + err) * Tabelas) (b : Banco) :
  responde b = true ->
  pedido op b = (fst (op (vista b)), com_tabelas (snd (op (vista b))) (tail (roteiro b)) b).
Proof.
  unfold responde, pedido, vista. destruct (roteiro b) as [|p resto].
  - intros _. destruct (op (tabelas b)); reflexivity.
  - destruct (falha p); [discriminate|]. intros _.
    destruct (op (concorrentes p (tabelas b))); reflexivity.
Qed.

(** The agreement of the written condition with the claim's: the third
    conjunct follows from the second. *)
Lemma condicao_debito (saldo valor : Z) :
  (valor <=? saldo) && (0 <=? saldo - valor) = (valor <=? saldo).
Proof. destruct (Z.leb_spec valor saldo); [|reflexivity]. cbn. apply Z.leb_le. lia. Qed.

Lemma UpdateItem_debito_ok (id : string) (valor : Z) (now : string) (tb : Tabelas) (c : ClienteItem) :
  clientes tb !! id = Some c ->
  valor <= ClienteItem_LimiteAtual c ->
  dynamodb.UpdateItem_debito id valor now 0 tb =
    (inl (ClienteItem_LimiteAtual c - valor),
     com_clientes
       (<[id := dynamodb.set_limite_atual (ClienteItem_LimiteAtual c - valor) now c]> (clientes tb)) tb).
Proof.
  intros Hc Hv. unfold dynamodb.UpdateItem_debito. rewrite Hc, condicao_debito.
  destruct (Z.leb_spec valor (ClienteItem_LimiteAtual c)); [reflexivity|lia].
Qed.

Lemma UpdateItem_debito_rejeitado (id : string) (valor : Z) (now : string) (tb : Tabelas) :
  ~ saldo_suficiente tb id valor ->
  dynamodb.UpdateItem_debito id valor now 0 tb = (inr ConditionalCheckFailedException, tb).
Proof.
  intros Hn. unfold dynamodb.UpdateItem_debito.
  destruct (clientes tb !! id) as [c|] eqn:Hc; [|reflexivity].
  rewrite condicao_debito.
  destruct (Z.leb_spec valor (ClienteItem_LimiteAtual c)); [|reflexivity].
  exfalso. apply Hn. exists c. split; [exact Hc|assumption].
Qed.

Lemma GetCliente_tabelas (id : string) (b : Banco) :
  snd (dynamodb.GetCliente id b) = so_ambiente 1 b.
Proof.
  unfold dynamodb.GetCliente, bind. destruct (responde b) eqn:Hr.
  - rewrite (pedido_responde _ _ Hr). cbn.
    destruct (clientes (vista b) !! id) as [c|]; [|reflexivity].
    destruct (dynamodb.UnmarshalMap_cliente c); reflexivity.
  - destruct (pedido_falha (dynamodb.GetItem_cliente id) b Hr) as [msg ->]. reflexivity.
Qed.

Lemma saldo_suficiente_dec (tb : Tabelas) (id : string) (valor : Z) :
  {c | clientes tb !! id = Some c /\ valor <= ClienteItem_LimiteAtual c} +
  {~ saldo_suficiente tb id valor}.
Proof.
  destruct (clientes tb !! id) as [c|] eqn:Hc; unfold saldo_suficiente.
  - destruct (Z_le_dec valor (ClienteItem_LimiteAtual c)) as [Hle|Hgt].
    + left. exists c. split; [reflexivity|exact Hle].
    + right. intros [c' [Hc' Hv]]. apply Hgt. congruence.
  - right. intros [c' [Hc' _]]. congruence.
Qed.

(** The follow-up read of [DebitarLimiteAtomica], after a refused
    condition [e]. *)
Lemma releitura (id : string) (valor : Z) (b1 : Banco) :
  (let (r, b2) := dynamodb.GetCliente id b1 in
   match r with
   | inl cliente =>
       if Cliente_LimiteAtual cliente <? valor then ret (Some ErrLimiteInsuficiente)
       else ret (Some (Errorf_w (String.append "operação atômica falhou para cliente " id)
                         ConditionalCheckFailedException))
   | inr getErr =>
       if errors_Is getErr ErrClienteNaoEncontrado then ret (Some ErrClienteNaoEncontrado)
       else ret (Some ErrLimiteInsuficiente)
   end b2) = (Some (diagnostico id valor b1), so_ambiente 1 b1).
Proof.
  unfold diagnostico, dynamodb.GetCliente, bind. destruct (responde b1) eqn:Hr.
  - rewrite (pedido_responde _ _ Hr). cbn [fst snd dynamodb.GetItem_cliente].
    destruct (clientes (vista b1) !! id) as [c|]; [|reflexivity].
    unfold dynamodb.UnmarshalMap_cliente.
    destruct (Float64.in_int (ClienteItem_LimiteCredit c) && Float64.in_int (ClienteItem_LimiteAtual c));
      [|reflexivity].
    cbn. destruct (ClienteItem_LimiteAtual c <? valor); reflexivity.
  - destruct (pedido_falha (dynamodb.GetItem_cliente id) b1 Hr) as [msg ->]. reflexivity.
Qed.

(** The three ways a debit ends: the request does not reach the store;
    the condition holds and the write is applied; the condition is refused
    and the record is read back. *)
Lemma DebitarLimiteAtomica_casos (id : string) (valor : Z) (b : Banco) :
  let now := dynamodb.Sprintf_d (dynamodb.wrap64 (agora b * 1000)) in
  (responde b = false /\
   exists msg,
     dynamodb.DebitarLimiteAtomica id valor b =
       (Some (Errorf_w (String.append "erro ao debitar limite do cliente " id) (ErroSDK msg)),
        so_ambiente 1 b)) \/
  (responde b = true /\
   exists c, clientes (vista b) !! id = Some c /\ valor <= ClienteItem_LimiteAtual c /\
     dynamodb.DebitarLimiteAtomica id valor b =
       (nil,
        com_tabelas
          (com_clientes
             (<[id := dynamodb.set_limite_atual (ClienteItem_LimiteAtual c - valor) now c]>
                (clientes (vista b))) (vista b))
          (tail (roteiro b)) b)) \/
  (responde b = true /\ ~ saldo_suficiente (vista b) id valor /\
   dynamodb.DebitarLimiteAtomica id valor b =
     (Some (diagnostico id valor (so_ambiente 1 b)), so_ambiente 2 b)).
Proof.
  intros now. unfold dynamodb.DebitarLimiteAtomica, dynamodb.currentTimeMillis, bind.
  fold now. destruct (responde b) eqn:Hr.
  - right. rewrite (pedido_responde _ _ Hr).
    destruct (saldo_suficiente_dec (vista b) id valor) as [[c [Hc Hle]]|Hn].
    + left. split; [reflexivity|]. exists c. repeat split; try assumption.
      rewrite (UpdateItem_debito_ok id valor now (vista b) c Hc Hle). reflexivity.
    + right. split; [reflexivity|]. split; [exact Hn|].
      rewrite (UpdateItem_debito_rejeitado id valor now (vista b) Hn).
      cbn [fst snd errors_As_condErr]. rewrite <- so_ambiente_1.
      apply (releitura id valor (so_ambiente 1 b)).
  - left. split; [reflexivity|].
    destruct (pedido_falha (dynamodb.UpdateItem_debito id valor now 0) b Hr) as [msg ->].
    exists msg. reflexivity.
Qed.

(** C1: the atomic debit succeeds exactly when the request reaches the
    store and, at that moment, the record of the customer exists with a
    balance of at least the amount. On success the store holds the same
    tables with that one record rewritten: its balance is the old balance
    minus the amount, its ceiling and identity are kept. On failure the
    tables are what the environment alone made of them: the call has
    written nothing. *)
Theorem DebitarLimiteAtomica_condicional (id : string) (valor : Z) (b : Banco) :
  let r := dynamodb.DebitarLimiteAtomica id valor b in
  (fst r = nil <-> responde b = true /\ saldo_suficiente (vista b) id valor) /\
  (fst r = nil ->
   exists c c',
     clientes (vista b) !! id = Some c /\
     clientes (tabelas (snd r)) = <[id := c']> (clientes (vista b)) /\
     transacoes (tabelas (snd r)) = transacoes (vista b) /\
     ClienteItem_LimiteAtual c' = ClienteItem_LimiteAtual c - valor /\
     ClienteItem_LimiteCredit c' = ClienteItem_LimiteCredit c /\
     ClienteItem_ID c' = ClienteItem_ID c) /\
  (fst r <> nil -> snd r = so_ambiente (if responde b then 2 else 1) b).
Proof.
  intros r. subst r.
  destruct (DebitarLimiteAtomica_casos id valor b)
    as [[Hr [msg ->]]|[[Hr [c [Hc [Hle ->]]]]|[Hr [Hn ->]]]]; cbn [fst snd].
  - rewrite Hr. split; [|split].
    + split; [discriminate|]. intros [H _]. discriminate H.
    + discriminate.
    + reflexivity.
  - split; [|split].
    + split; [|reflexivity]. intros _. split; [exact Hr|]. exists c. split; assumption.
    + intros _. eexists c, _. repeat split. exact Hc.
    + intros H. exfalso. apply H. reflexivity.
  - rewrite Hr. split; [|split].
    + split; [discriminate|]. intros [_ H]. contradiction.
    + discriminate.
    + reflexivity.
Qed.

Example DebitarLimiteAtomica_9990 :
  let r := dynamodb.DebitarLimiteAtomica "C1" 9990 exemplo.banco0 in
  fst r = nil /\
  ClienteItem_LimiteAtual <$> (clientes (tabelas (snd r)) !! "C1") = Some 10.
Proof. vm_compute. split; reflexivity. Qed.

Example DebitarLimiteAtomica_10001 :
  let r := dynamodb.DebitarLimiteAtomica "C1" 10001 exemplo.banco0 in
  fst r = Some ErrLimiteInsuficiente /\ tabelas (snd r) = tabelas exemplo.banco0.
Proof. vm_compute. split; reflexivity. Qed.

Example DebitarLimiteAtomica_desconhecido :
  fst (dynamodb.DebitarLimiteAtomica "C9" 1 exemplo.banco0) = Some ErrClienteNaoEncontrado.
Proof. vm_compute. reflexivity. Qed.

(** C4, refuted as worded: the balance is 10 when the debit of 9990 is
    refused and 10000 when the record is read back; the debit answers the
    error that wraps the refused condition, not InsufficientBalance. *)
Lemma releitura_conservadora_falha : ~ releitura_conservadora.
Proof.
  intros H.
  assert (Hn : ~ saldo_suficiente (vista exemplo.banco_corrida) "C1" 9990).
  { intros [c [Hc Hv]]. vm_compute in Hc. injection Hc as <-. vm_compute in Hv. apply Hv. reflexivity. }
  destruct (H "C1" 9990 exemplo.banco_corrida eq_refl Hn eq_refl) as [_ [_ H3]].
  specialize (H3 (dynamodb.set_limite_atual 10000 "1700000000000" exemplo.c1)).
  assert (Hl : clientes (vista (so_ambiente 1 exemplo.banco_corrida)) !! "C1" =
               Some (dynamodb.set_limite_atual 10000 "1700000000000" exemplo.c1))
    by (vm_compute; reflexivity).
  specialize (H3 Hl). cbn in H3. assert (Hv : 9990 <= 10000) by lia. specialize (H3 Hv).
  vm_compute in H3. discriminate H3.
Qed.

(** C4, amended: once the store has refused the condition the record is
    read back, and the debit answers CustomerNotFound when it is absent,
    InsufficientBalance when its balance is below the amount, and, when its
    balance covers the amount, the error that wraps the refused condition,
    which is neither InsufficientBalance nor CustomerNotFound.
    InsufficientBalance is also the answer when the read fails or the
    record does not fit the entity. *)
Theorem DebitarLimiteAtomica_releitura (id : string) (valor : Z) (b : Banco) :
  responde b = true ->
  ~ saldo_suficiente (vista b) id valor ->
  let b1 := so_ambiente 1 b in
  let r := fst (dynamodb.DebitarLimiteAtomica id valor b) in
  (responde b1 = true -> clientes (vista b1) !! id = None -> r = Some ErrClienteNaoEncontrado) /\
  (forall c, responde b1 = true -> clientes (vista b1) !! id = Some c ->
             ClienteItem_LimiteAtual c < valor -> r = Some ErrLimiteInsuficiente) /\
  (forall c, responde b1 = true -> clientes (vista b1) !! id = Some c ->
             valor <= ClienteItem_LimiteAtual c ->
             Float64.in_int (ClienteItem_LimiteCredit c) && Float64.in_int (ClienteItem_LimiteAtual c) = true ->
             exists e, r = Some e /\
               e = Errorf_w (String.append "operação atômica falhou para cliente " id)
                     ConditionalCheckFailedException /\
               errors_Is e ErrLimiteInsuficiente = false /\
               errors_Is e ErrClienteNaoEncontrado = false) /\
  (forall c, responde b1 = true -> clientes (vista b1) !! id = Some c ->
             Float64.in_int (ClienteItem_LimiteCredit c) && Float64.in_int (ClienteItem_LimiteAtual c) = false ->
             r = Some ErrLimiteInsuficiente) /\
  (responde b1 = false -> r = Some ErrLimiteInsuficiente).
Proof.
  intros Hr Hn b1 r. subst r.
  destruct (DebitarLimiteAtomica_casos id valor b)
    as [[Hr' _]|[[_ [c [Hc [Hle _]]]]|[_ [_ ->]]]].
  - congruence.
  - exfalso. apply Hn. exists c. split; assumption.
  - cbn [fst]. fold b1. unfold diagnostico. repeat split.
    + intros -> ->. reflexivity.
    + intros c -> -> Hlt.
      destruct (Float64.in_int _ && Float64.in_int _); [|reflexivity].
      destruct (Z.ltb_spec (ClienteItem_LimiteAtual c) valor); [reflexivity|lia].
    + intros c -> -> Hle ->.
      destruct (Z.ltb_spec (ClienteItem_LimiteAtual c) valor); [lia|].
      eexists. repeat split.
    + intros c -> -> ->. reflexivity.
    + intros ->. reflexivity.
Qed.

(** The race of [exemplo.banco_corrida]. *)
Lemma DebitarLimiteAtomica_releitura_corrida :
  responde exemplo.banco_corrida = true /\
  fst (dynamodb.DebitarLimiteAtomica "C1" 9990 exemplo.banco_corrida) =
    Some (Errorf_w "operação atômica falhou para cliente C1" ConditionalCheckFailedException).
Proof.
  split; [reflexivity|].
  assert (Hn : ~ saldo_suficiente (vista exemplo.banco_corrida) "C1" 9990).
  { intros [c [Hc Hv]]. vm_compute in Hc. injection Hc as <-. vm_compute in Hv. apply Hv. reflexivity. }
  destruct (DebitarLimiteAtomica_releitura "C1" 9990 exemplo.banco_corrida eq_refl Hn)
    as [_ [_ [H3 _]]].
  destruct (H3 (dynamodb.set_limite_atual 10000 "1700000000000" exemplo.c1))
    as [e [He [-> _]]].
  - reflexivity.
  - vm_compute. reflexivity.
  - cbn. lia.
  - reflexivity.
  - exact He.
Defined.

(** ** The balance invariant *)

Lemma UpdateLimite_casos (id : string) (novoLimite : Z) (b : Banco) :
  let now := dynamodb.Sprintf_d (dynamodb.wrap64 (agora b * 1000)) in
  (exists e, dynamodb.UpdateLimite id novoLimite b = (Some e, so_ambiente 1 b)) \/
  (exists c, clientes (vista b) !! id = Some c /\
     dynamodb.UpdateLimite id novoLimite b =
       (nil,
        com_tabelas
          (com_clientes
             (<[id := dynamodb.set_limite_atual novoLimite now c]> (clientes (vista b))) (vista b))
          (tail (roteiro b)) b)).
Proof.
  intros now. unfold dynamodb.UpdateLimite, dynamodb.currentTimeMillis, bind. fold now.
  destruct (responde b) eqn:Hr.
  - rewrite (pedido_responde _ _ Hr). unfold dynamodb.UpdateItem_limite.
    destruct (clientes (vista b) !! id) as [c|] eqn:Hc.
    + right. exists c. split; reflexivity.
    + left. eexists. reflexivity.
  - left. destruct (pedido_falha (dynamodb.UpdateItem_limite id novoLimite now) b Hr) as [msg ->].
    eexists. reflexivity.
Qed.

(** C6, refuted as worded: [UpdateLimite] writes the balance it is given,
    here -5 on the record of C1, and succeeds. *)
Lemma invariante_apos_mutacao_falha : ~ invariante_apos_mutacao.
Proof.
  intros H.
  assert (Hinv : invariante (vista exemplo.banco0) "C1").
  { intros c Hc. vm_compute in Hc. injection Hc as <-. cbn. lia. }
  destruct (H "C1" (-5) exemplo.banco0 Hinv) as [_ Hu].
  specialize (Hu eq_refl (dynamodb.set_limite_atual (-5) "1700000000000" exemplo.c1)).
  assert (Hl : clientes (tabelas (snd (dynamodb.UpdateLimite "C1" (-5) exemplo.banco0))) !! "C1" =
               Some (dynamodb.set_limite_atual (-5) "1700000000000" exemplo.c1))
    by (vm_compute; reflexivity).
  specialize (Hu Hl). cbn in Hu. lia.
Qed.

(** C6, amended: after a successful atomic debit the balance of the record
    is not negative, and it stays within the ceiling when it was within it
    and the amount is not negative. After a successful [UpdateLimite] the
    balance is the value passed, whatever it is, and the ceiling is kept:
    the invariant holds exactly when that value lies between 0 and the
    ceiling. *)
Theorem mutacao_e_invariante (id : string) (valor : Z) (b : Banco) :
  let d := dynamodb.DebitarLimiteAtomica id valor b in
  let u := dynamodb.UpdateLimite id valor b in
  (fst d = nil ->
   exists c', clientes (tabelas (snd d)) !! id = Some c' /\
     0 <= ClienteItem_LimiteAtual c' /\
     (0 <= valor -> invariante (vista b) id -> invariante (tabelas (snd d)) id)) /\
  (fst u = nil ->
   exists c c', clientes (vista b) !! id = Some c /\
     clientes (tabelas (snd u)) !! id = Some c' /\
     ClienteItem_LimiteAtual c' = valor /\
     ClienteItem_LimiteCredit c' = ClienteItem_LimiteCredit c /\
     (invariante (tabelas (snd u)) id <-> 0 <= valor <= ClienteItem_LimiteCredit c)).
Proof.
  intros d u. subst d u. split.
  - destruct (DebitarLimiteAtomica_casos id valor b)
      as [[_ [msg ->]]|[[_ [c [Hc [Hle ->]]]]|[_ [_ ->]]]]; cbn [fst snd]; try discriminate.
    intros _. cbn [tabelas com_tabelas clientes com_clientes].
    eexists. rewrite lookup_insert_eq. split; [reflexivity|]. cbn. split; [lia|].
    intros Hv Hinv c' Hc'. cbn [tabelas com_tabelas clientes com_clientes] in Hc'.
    rewrite lookup_insert_eq in Hc'. injection Hc' as <-. cbn.
    specialize (Hinv c Hc). lia.
  - destruct (UpdateLimite_casos id valor b) as [[e ->]|[c [Hc ->]]]; cbn [fst snd]; try discriminate.
    intros _. cbn [tabelas com_tabelas clientes com_clientes].
    exists c. eexists. rewrite lookup_insert_eq.
    split; [exact Hc|]. split; [reflexivity|]. cbn [dynamodb.set_limite_atual ClienteItem_LimiteAtual ClienteItem_LimiteCredit].
    split; [reflexivity|]. split; [reflexivity|]. unfold invariante.
    cbn [tabelas com_tabelas clientes com_clientes]. split.
    + intros Hinv. specialize (Hinv _ (lookup_insert_eq _ _ _)). cbn in Hinv. lia.
    + intros Hv c' Hc'. rewrite lookup_insert_eq in Hc'. injection Hc' as <-. cbn. lia.
Qed.

Example DebitarLimiteAtomica_negativo :
  let r := dynamodb.DebitarLimiteAtomica "C1" (-5) exemplo.banco0 in
  fst r = nil /\
  ClienteItem_LimiteAtual <$> (clientes (tabelas (snd r)) !! "C1") = Some 10005.
Proof. vm_compute. split; reflexivity. Qed.

(** ** The orchestrator *)

(** Whatever implements the ports: [AutorizarTransacao] returns [nil]
    only if the entity is valid and the call of [DebitarLimiteAtomica] it
    made, for the customer and the amount of the transaction, returned
    [nil]. *)
Section QualquerImplementacao.

Context {S : Type}.
Context {limiteRepository : LimiteRepository S}.
Context {transacaoRepository : TransacaoRepository S}.
Context {eventPublisher : EventPublisher S}.
Context {metricsCollector : MetricsCollector S}.
Context {tracer : DistributedTracer S}.
Context {logger : Logger S}.
Context {runtime : Runtime S}.
Variable int_indef : Z.

Lemma AutorizarTransacao_nil_qualquer (t : Transacao) (s : S) :
  snd (fst (service.AutorizarTransacao int_indef t s)) = nil ->
  Valida t = nil /\
  exists s0,
    fst (DebitarLimiteAtomica (Transacao_ClienteID t)
           (service.valorCentavos int_indef t) s0) = nil.
Proof.
  unfold service.AutorizarTransacao, service.validarTransacao, service.processarLimite,
    service.rejeitarTransacao, service.aprovarTransacao, bind, ret, nil.
  intros H. destruct (Valida t) as [e|] eqn:Hv.
  - exfalso. repeat passo H; cbn in H; discriminate H.
  - split; [reflexivity|].
    repeat passo H; cbn in H; try discriminate H;
      match goal with
      | Hd : DebitarLimiteAtomica _ _ ?s0 = (None, _) |- _ => exists s0; rewrite Hd; reflexivity
      end.
Qed.

End QualquerImplementacao.

(** The three paths of [AutorizarTransacao]: what it returns, what it
    leaves in the store and which goroutine it starts. *)

Lemma Autorizar_invalida (int_indef : Z) (t : Transacao) (w : World) (e : err) :
  Valida t = Some e ->
  let r := service.AutorizarTransacao int_indef t w in
  fst r = (Rejeitar t, Some e) /\
  banco (snd r) = snd (dynamodb.Save (Rejeitar t) (banco w)) /\
  pendentes (snd r) = (pendentes w ++ [GoPublicarEventoRejeicao (Rejeitar t) e])%list.
Proof.
  intros Hv r. subst r. desdobrar. rewrite Hv. desdobrar.
  destruct (dynamodb.Save (Rejeitar t) (banco w)) as [[es|] b2]; cbn; repeat split.
Qed.

Lemma Autorizar_debito_falha (int_indef : Z) (t : Transacao) (w : World) (e : err) (b1 : Banco) :
  Valida t = None ->
  dynamodb.DebitarLimiteAtomica (Transacao_ClienteID t)
    (service.valorCentavos int_indef t) (banco w) = (Some e, b1) ->
  let r := service.AutorizarTransacao int_indef t w in
  fst r = (Rejeitar t, Some e) /\
  banco (snd r) = snd (dynamodb.Save (Rejeitar t) b1) /\
  pendentes (snd r) = (pendentes w ++ [GoPublicarEventoRejeicao (Rejeitar t) e])%list.
Proof.
  intros Hv Hd r. subst r. desdobrar. rewrite Hv. desdobrar. rewrite Hd.
  destruct (errors_Is e ErrLimiteInsuficiente); desdobrar;
    destruct (dynamodb.Save (Rejeitar t) b1) as [[es|] b2]; cbn; repeat split.
Qed.

Lemma Autorizar_debito_ok (int_indef : Z) (t : Transacao) (w : World) (b1 : Banco) :
  Valida t = None ->
  dynamodb.DebitarLimiteAtomica (Transacao_ClienteID t)
    (service.valorCentavos int_indef t) (banco w) = (None, b1) ->
  let r := service.AutorizarTransacao int_indef t w in
  fst r = (Aprovar t, fst (dynamodb.Save (Aprovar t) b1)) /\
  banco (snd r) = snd (dynamodb.Save (Aprovar t) b1) /\
  pendentes (snd r) =
    (pendentes w ++ match fst (dynamodb.Save (Aprovar t) b1) with
                    | None => [GoPublicarEvento (Aprovar t)]
                    | Some _ => []
                    end)%list.
Proof.
  intros Hv Hd r. subst r. desdobrar. rewrite Hv. desdobrar. rewrite Hd. desdobrar.
  destruct (dynamodb.Save (Aprovar t) b1) as [[es|] b2]; cbn; repeat split.
  symmetry. apply app_nil_r.
Qed.

(** C2: when [AutorizarTransacao] returns [nil], the entity it leaves is
    the approved one and the atomic debit of the transaction's amount,
    issued against the store of that world, returned [nil]: the request
    reached the store and the condition held there, so the write was
    applied; the store the call leaves is the debited one with the
    approved record appended. *)
Theorem AutorizarTransacao_nil_debitou (int_indef : Z) (t : Transacao) (w : World) :
  snd (fst (service.AutorizarTransacao int_indef t w)) = nil ->
  let id := Transacao_ClienteID t in
  let valor := service.valorCentavos int_indef t in
  Valida t = nil /\
  fst (dynamodb.DebitarLimiteAtomica id valor (banco w)) = nil /\
  responde (banco w) = true /\
  saldo_suficiente (vista (banco w)) id valor /\
  fst (fst (service.AutorizarTransacao int_indef t w)) = Aprovar t /\
  banco (snd (service.AutorizarTransacao int_indef t w)) =
    snd (dynamodb.Save (Aprovar t) (snd (dynamodb.DebitarLimiteAtomica id valor (banco w)))).
Proof.
  intros H id valor. subst id valor.
  destruct (Valida t) as [e|] eqn:Hv.
  { destruct (Autorizar_invalida int_indef t w e Hv) as [Hr _]. rewrite Hr in H. discriminate H. }
  destruct (dynamodb.DebitarLimiteAtomica (Transacao_ClienteID t)
              (service.valorCentavos int_indef t) (banco w)) as [[e|] b1] eqn:Hd.
  { destruct (Autorizar_debito_falha int_indef t w e b1 Hv Hd) as [Hr _].
    rewrite Hr in H. discriminate H. }
  destruct (Autorizar_debito_ok int_indef t w b1 Hv Hd) as [Hr [Hb _]].
  rewrite Hr, Hb. cbn [fst snd]. repeat split.
  - destruct (DebitarLimiteAtomica_casos (Transacao_ClienteID t)
                (service.valorCentavos int_indef t) (banco w))
      as [[_ [msg Hc]]|[[Hresp _]|[_ [_ Hc]]]]; [congruence|exact Hresp|congruence].
  - destruct (DebitarLimiteAtomica_casos (Transacao_ClienteID t)
                (service.valorCentavos int_indef t) (banco w))
      as [[_ [msg Hc]]|[[_ [c [Hc [Hle _]]]]|[_ [_ Hc]]]]; [congruence| |congruence].
    exists c. split; assumption.
Qed.

(** The approved request of 99.90 against a balance of 100.00. *)
Lemma AutorizarTransacao_nil_99_90 :
  snd (fst (service.AutorizarTransacao 0 exemplo.t_99_90 exemplo.mundo0)) = nil /\
  fst (dynamodb.DebitarLimiteAtomica "C1" 9990 exemplo.banco0) = nil.
Proof.
  assert (H : snd (fst (service.AutorizarTransacao 0 exemplo.t_99_90 exemplo.mundo0)) = nil)
    by (vm_compute; reflexivity).
  split; [exact H|].
  destruct (AutorizarTransacao_nil_debitou 0 exemplo.t_99_90 exemplo.mundo0 H) as [_ [Hd _]].
  exact Hd.
Defined.

(** ** The transaction log *)

Lemma Save_casos (t : Transacao) (b : Banco) :
  (responde b = false /\
   exists msg,
     dynamodb.Save t b =
       (Some (Errorf_w "erro ao salvar transação" (ErroSDK msg)), so_ambiente 1 b)) \/
  (responde b = true /\ transacoes (vista b) !! Transacao_ID t = None /\
   dynamodb.Save t b =
     (nil,
      com_tabelas
        (com_transacoes
           (<[Transacao_ID t := dynamodb.transacaoToItem t]> (transacoes (vista b))) (vista b))
        (tail (roteiro b)) b)) \/
  (responde b = true /\ (exists item, transacoes (vista b) !! Transacao_ID t = Some item) /\
   dynamodb.Save t b =
     (Some (Errorf (String.append "transação " (String.append (Transacao_ID t) " já existe"))),
      so_ambiente 1 b)).
Proof.
  unfold dynamodb.Save, bind. destruct (responde b) eqn:Hr.
  - right. rewrite (pedido_responde _ _ Hr). unfold dynamodb.PutItem_transacao.
    cbn [dynamodb.transacaoToItem TransacaoItem_ID].
    destruct (transacoes (vista b) !! Transacao_ID t) as [item|] eqn:Hl.
    + right. split; [reflexivity|]. split; [exists item; reflexivity|]. reflexivity.
    + left. split; [reflexivity|]. split; reflexivity.
  - left. split; [reflexivity|].
    destruct (pedido_falha (dynamodb.PutItem_transacao (dynamodb.transacaoToItem t)) b Hr)
      as [msg ->].
    exists msg. reflexivity.
Qed.

(** C3, refuted as worded: the debit request of 99.90 for C1 does not
    reach the store; the orchestrator returns the error, and yet the
    entity is REJEITADA and the log holds it. *)
Lemma indisponivel_sem_registro_falha : ~ indisponivel_sem_registro.
Proof.
  intros H.
  destruct (H 0 exemplo.t_99_90 (exemplo.mundo exemplo.banco_indisponivel)
              (Errorf_w "erro ao debitar limite do cliente C1" (ErroSDK "RequestTimeout")))
    as [_ [Hst _]].
  - vm_compute. reflexivity.
  - vm_compute. reflexivity.
  - discriminate.
  - discriminate.
  - apply Hst. vm_compute. reflexivity.
Qed.

Example indisponivel_registrada :
  let r := service.AutorizarTransacao 0 exemplo.t_99_90 (exemplo.mundo exemplo.banco_indisponivel) in
  TransacaoItem_Status <$> (transacoes (tabelas (banco (snd r))) !! "tx-1") = Some "REJEITADA" /\
  ClienteItem_LimiteAtual <$> (clientes (tabelas (banco (snd r))) !! "C1") = Some 10000.
Proof. vm_compute. split; reflexivity. Qed.

(** C3, amended: when the debit fails with an error that is neither
    InsufficientBalance nor CustomerNotFound, the orchestrator returns that
    very error to the caller, marks the entity Rejected and appends it to
    the log as for any rejection: the log holds the Rejected record
    whenever the append reaches the store and the id is new there. *)
Theorem AutorizarTransacao_debito_indisponivel
    (int_indef : Z) (t : Transacao) (w : World) (e : err) :
  Valida t = nil ->
  fst (dynamodb.DebitarLimiteAtomica (Transacao_ClienteID t)
         (service.valorCentavos int_indef t) (banco w)) = Some e ->
  e <> ErrLimiteInsuficiente ->
  e <> ErrClienteNaoEncontrado ->
  let b1 := snd (dynamodb.DebitarLimiteAtomica (Transacao_ClienteID t)
                   (service.valorCentavos int_indef t) (banco w)) in
  let r := service.AutorizarTransacao int_indef t w in
  snd (fst r) = Some e /\
  fst (fst r) = Rejeitar t /\
  Transacao_Status (fst (fst r)) = StatusRejeitada /\
  banco (snd r) = snd (dynamodb.Save (Rejeitar t) b1) /\
  (responde b1 = true ->
   transacoes (vista b1) !! Transacao_ID t = None ->
   transacoes (tabelas (banco (snd r))) !! Transacao_ID t =
     Some (dynamodb.transacaoToItem (Rejeitar t))).
Proof.
  intros Hv Hd _ _ b1 r. subst b1 r.
  destruct (dynamodb.DebitarLimiteAtomica (Transacao_ClienteID t)
              (service.valorCentavos int_indef t) (banco w)) as [e' b1] eqn:Hdeb.
  cbn [fst snd] in *. subst e'.
  destruct (Autorizar_debito_falha int_indef t w e b1 Hv Hdeb) as [Hr [Hb _]].
  rewrite Hr, Hb. cbn [fst snd]. repeat split.
  intros Hresp Hnovo.
  destruct (Save_casos (Rejeitar t) b1) as [[Hf _]|[[_ [_ ->]]|[_ [[item Hi] _]]]].
  - congruence.
  - cbn [snd tabelas com_tabelas transacoes com_transacoes].
    change (Transacao_ID (Rejeitar t)) with (Transacao_ID t). apply lookup_insert_eq.
  - change (Transacao_ID (Rejeitar t)) with (Transacao_ID t) in Hi. congruence.
Qed.

(** The request of 99.90 whose debit does not reach the store. *)
Lemma AutorizarTransacao_debito_indisponivel_99_90 :
  Valida exemplo.t_99_90 = nil /\
  snd (fst (service.AutorizarTransacao 0 exemplo.t_99_90 (exemplo.mundo exemplo.banco_indisponivel))) =
    Some (Errorf_w "erro ao debitar limite do cliente C1" (ErroSDK "RequestTimeout")) /\
  Transacao_Status
    (fst (fst (service.AutorizarTransacao 0 exemplo.t_99_90 (exemplo.mundo exemplo.banco_indisponivel)))) =
    StatusRejeitada.
Proof.
  assert (Hv : Valida exemplo.t_99_90 = nil) by (vm_compute; reflexivity).
  split; [exact Hv|].
  destruct (AutorizarTransacao_debito_indisponivel 0 exemplo.t_99_90
              (exemplo.mundo exemplo.banco_indisponivel)
              (Errorf_w "erro ao debitar limite do cliente C1" (ErroSDK "RequestTimeout")))
    as [He [_ [Hs _]]].
  - exact Hv.
  - vm_compute. reflexivity.
  - discriminate.
  - discriminate.
  - split; [exact He|exact Hs].
Defined.

(** C5, at a replayed request: the transaction tx-3 of 10.00 for C1 is
    submitted twice. The second append answers a plain message error, not
    [ErrTransacaoDuplicada], the orchestrator returns that error to the
    caller, and the balance has been debited twice. *)
Theorem Save_duplicada_erro_generico (int_indef : Z) :
  let w1 := snd (atender int_indef exemplo.t_10_00 exemplo.mundo0) in
  let r2 := atender int_indef exemplo.t_10_00 w1 in
  fst (dynamodb.Save (Aprovar exemplo.t_10_00) (banco w1)) =
    Some (Errorf "transação tx-3 já existe") /\
  errors_Is (Errorf "transação tx-3 já existe") ErrTransacaoDuplicada = false /\
  snd (fst r2) = Some (Errorf "transação tx-3 já existe") /\
  ClienteItem_LimiteAtual <$> (clientes (tabelas (banco w1)) !! "C1") = Some 9000 /\
  ClienteItem_LimiteAtual <$> (clientes (tabelas (banco (snd r2))) !! "C1") = Some 8000.
Proof. vm_compute. repeat split. Qed.

(** Whatever the store and the transaction: an append whose id is already
    in the log answers an error made of a message alone, which
    [errors.Is] does not relate to [ErrTransacaoDuplicada]. *)
Lemma Save_duplicada (t : Transacao) (b : Banco) (item : TransacaoItem) :
  responde b = true ->
  transacoes (vista b) !! Transacao_ID t = Some item ->
  exists e, fst (dynamodb.Save t b) = Some e /\
    e = Errorf (String.append "transação " (String.append (Transacao_ID t) " já existe")) /\
    errors_Is e ErrTransacaoDuplicada = false.
Proof.
  intros Hr Hi.
  destruct (Save_casos t b) as [[Hf _]|[[_ [Hn _]]|[_ [_ ->]]]]; [congruence|congruence|].
  eexists. repeat split.
Qed.

(** ** Publication *)

Lemma executar_banco (g : Goroutine) (w : World) :
  banco (snd (service.executar g w)) = banco w.
Proof.
  destruct g as [t|t motivo]; unfold service.executar; desdobrar; unfold publicar;
    destruct (falha_publicacao _ _); reflexivity.
Qed.

Lemma executar_todas_banco (gs : list Goroutine) (w : World) :
  banco (snd (executar_todas gs w)) = banco w.
Proof.
  revert w. induction gs as [|g gs IH]; intros w; [reflexivity|].
  cbn [executar_todas]. unfold bind.
  pose proof (executar_banco g w) as Hg.
  destruct (service.executar g w) as [u w1]. cbn in Hg. rewrite IH. exact Hg.
Qed.

Lemma atender_resultado (int_indef : Z) (t : Transacao) (w : World) :
  fst (atender int_indef t w) = fst (service.AutorizarTransacao int_indef t w) /\
  banco (snd (atender int_indef t w)) = banco (snd (service.AutorizarTransacao int_indef t w)).
Proof.
  unfold atender. destruct (service.AutorizarTransacao int_indef t w) as [r w1].
  pose proof (executar_todas_banco (pendentes w1) (esvaziar w1)) as Hb.
  destruct (executar_todas (pendentes w1) (esvaziar w1)) as [u w2].
  cbn in *. split; [reflexivity|exact Hb].
Qed.

(** What [AutorizarTransacao] returns and leaves in the store is a
    function of the entity and of the store of the world. *)
Lemma Autorizar_so_banco (int_indef : Z) (t : Transacao) (w w' : World) :
  banco w = banco w' ->
  fst (service.AutorizarTransacao int_indef t w) = fst (service.AutorizarTransacao int_indef t w') /\
  banco (snd (service.AutorizarTransacao int_indef t w)) =
    banco (snd (service.AutorizarTransacao int_indef t w')).
Proof.
  intros Hb. destruct (Valida t) as [e|] eqn:Hv.
  - destruct (Autorizar_invalida int_indef t w e Hv) as [-> [-> _]].
    destruct (Autorizar_invalida int_indef t w' e Hv) as [-> [-> _]].
    rewrite Hb. split; reflexivity.
  - destruct (dynamodb.DebitarLimiteAtomica (Transacao_ClienteID t)
                (service.valorCentavos int_indef t) (banco w)) as [[e|] b1] eqn:Hd.
    + destruct (Autorizar_debito_falha int_indef t w e b1 Hv Hd) as [-> [-> _]].
      rewrite Hb in Hd.
      destruct (Autorizar_debito_falha int_indef t w' e b1 Hv Hd) as [-> [-> _]].
      split; reflexivity.
    + destruct (Autorizar_debito_ok int_indef t w b1 Hv Hd) as [-> [-> _]].
      rewrite Hb in Hd.
      destruct (Autorizar_debito_ok int_indef t w' b1 Hv Hd) as [-> [-> _]].
      split; reflexivity.
Qed.

(** C9: take any world and any two behaviours of the publisher, one that
    accepts the events and one that refuses them, or any other pair. The
    request served to the end, goroutines included, returns the same
    entity and the same error, and leaves the same store, hence the same
    record with the same terminal status in the log. *)
Theorem publicacao_nao_muda_resultado
    (int_indef : Z) (t : Transacao) (w : World)
    (f1 f2 : TransacaoEvento -> option string) :
  let r1 := atender int_indef t (com_falha_publicacao f1 w) in
  let r2 := atender int_indef t (com_falha_publicacao f2 w) in
  fst r1 = fst r2 /\
  banco (snd r1) = banco (snd r2) /\
  transacoes (tabelas (banco (snd r1))) !! Transacao_ID t =
    transacoes (tabelas (banco (snd r2))) !! Transacao_ID t.
Proof.
  intros r1 r2. subst r1 r2.
  destruct (atender_resultado int_indef t (com_falha_publicacao f1 w)) as [-> Hb1].
  destruct (atender_resultado int_indef t (com_falha_publicacao f2 w)) as [-> Hb2].
  destruct (Autorizar_so_banco int_indef t (com_falha_publicacao f1 w)
              (com_falha_publicacao f2 w) eq_refl) as [Hr Hb].
  rewrite Hb1, Hb2, Hb. repeat split. exact Hr.
Qed.

Example publicador_falha_aprovada :
  let r := atender 0 exemplo.t_99_90 (exemplo.mundo_sem_publicador exemplo.banco0) in
  snd (fst r) = nil /\
  Transacao_Status (fst (fst r)) = "APROVADA" /\
  TransacaoItem_Status <$> (transacoes (tabelas (banco (snd r))) !! "tx-1") = Some "APROVADA" /\
  publicados (snd r) = [] /\
  In (RCounter "error_count" "event_publish_error") (saida (snd r)).
Proof. vm_compute. repeat split. repeat (first [left; reflexivity | right]). Qed.

(** * Further properties of the code *)

(** ** Reading and writing a customer *)

Lemma GetCliente_casos (id : string) (b : Banco) :
  (responde b = false /\
   exists msg, fst (dynamodb.GetCliente id b) =
     inr (Errorf_w (String.append "erro ao buscar cliente " id) (ErroSDK msg))) \/
  (responde b = true /\ clientes (vista b) !! id = None /\
   fst (dynamodb.GetCliente id b) = inr ErrClienteNaoEncontrado) \/
  (responde b = true /\
   exists c, clientes (vista b) !! id = Some c /\
     fst (dynamodb.GetCliente id b) =
       if Float64.in_int (ClienteItem_LimiteCredit c) && Float64.in_int (ClienteItem_LimiteAtual c)
       then inl (dynamodb.itemToCliente c)
       else inr (Errorf_w "erro ao deserializar cliente"
                   (ErroSDK "unmarshal failed, number overflow"))).
Proof.
  unfold dynamodb.GetCliente, bind. destruct (responde b) eqn:Hr.
  - right. rewrite (pedido_responde _ _ Hr). cbn [fst snd dynamodb.GetItem_cliente].
    destruct (clientes (vista b) !! id) as [c|] eqn:Hc.
    + right. split; [reflexivity|]. exists c. split; [reflexivity|].
      unfold dynamodb.UnmarshalMap_cliente.
      destruct (Float64.in_int _ && Float64.in_int _); reflexivity.
    + left. repeat split.
  - left. split; [reflexivity|].
    destruct (pedido_falha (dynamodb.GetItem_cliente id) b Hr) as [msg ->].
    exists msg. reflexivity.
Qed.

(** X1: [GetCliente] answers [ErrClienteNaoEncontrado] exactly when the
    read reaches the store and no record has the id; a customer it returns
    is the stored record (id, ceiling, balance), whose two numbers fit an
    [int]; and it writes nothing: the store after it is what the
    environment alone made of it. *)
Theorem GetCliente_resposta (id : string) (b : Banco) :
  let r := dynamodb.GetCliente id b in
  (fst r = inr ErrClienteNaoEncontrado <->
   responde b = true /\ clientes (vista b) !! id = None) /\
  (forall cliente, fst r = inl cliente ->
     responde b = true /\
     exists c, clientes (vista b) !! id = Some c /\
       Cliente_ID cliente = ClienteItem_ID c /\
       Cliente_LimiteCredit cliente = ClienteItem_LimiteCredit c /\
       Cliente_LimiteAtual cliente = ClienteItem_LimiteAtual c /\
       Float64.in_int (Cliente_LimiteCredit cliente) = true /\
       Float64.in_int (Cliente_LimiteAtual cliente) = true) /\
  snd r = so_ambiente 1 b.
Proof.
  intros r. subst r. split; [|split].
  - destruct (GetCliente_casos id b) as [[Hr [msg ->]]|[[Hr [Hn ->]]|[Hr [c [Hc ->]]]]].
    + split; [discriminate|]. intros [H _]. congruence.
    + split; [intros _; split; assumption|reflexivity].
    + split.
      * destruct (Float64.in_int _ && Float64.in_int _); discriminate.
      * intros [_ H]. congruence.
  - intros cliente.
    destruct (GetCliente_casos id b) as [[Hr [msg ->]]|[[Hr [Hn ->]]|[Hr [c [Hc ->]]]]];
      try discriminate.
    destruct (Float64.in_int (ClienteItem_LimiteCredit c) && Float64.in_int (ClienteItem_LimiteAtual c))
      eqn:Hint; [|discriminate].
    intros H. injection H as <-. split; [exact Hr|]. exists c.
    apply andb_true_iff in Hint. destruct Hint as [H1 H2]. cbn. repeat split; assumption.
  - apply GetCliente_tabelas.
Qed.

Lemma sossegado_responde (b : Banco) : sossegado b -> responde b = true.
Proof. unfold sossegado, responde. intros ->. reflexivity. Qed.

Lemma sossegado_vista (b : Banco) : sossegado b -> vista b = tabelas b.
Proof. unfold sossegado, vista. intros ->. reflexivity. Qed.

Lemma sossegado_com_tabelas (tb : Tabelas) (b : Banco) :
  sossegado b -> sossegado (com_tabelas tb (tail (roteiro b)) b).
Proof. unfold sossegado. intros ->. reflexivity. Qed.

Lemma sossegado_so_ambiente (n : nat) (b : Banco) : sossegado b -> so_ambiente n b = b.
Proof.
  intros Hq. induction n as [|n IH]; [reflexivity|].
  cbn [so_ambiente]. rewrite (sossegado_vista b Hq). unfold sossegado in Hq. rewrite Hq.
  cbn [tail]. replace (com_tabelas (tabelas b) [] b) with b; [exact IH|].
  destruct b as [tb r a]. cbn in Hq. subst r. reflexivity.
Qed.

(** X2: [UpdateLimite] creates nothing. It answers
    [ErrClienteNaoEncontrado] exactly when the request reaches the store
    and no record has the id, and every failure leaves the tables to the
    environment. A success leaves the log and every other customer as they
    were, and keeps the id, name, e-mail and creation time of the record. *)
Theorem UpdateLimite_sem_criacao (id : string) (novoLimite : Z) (b : Banco) :
  let r := dynamodb.UpdateLimite id novoLimite b in
  (fst r = Some ErrClienteNaoEncontrado <->
   responde b = true /\ clientes (vista b) !! id = None) /\
  (fst r <> nil -> snd r = so_ambiente 1 b) /\
  (fst r = nil ->
   transacoes (tabelas (snd r)) = transacoes (vista b) /\
   (forall outro, outro <> id ->
      clientes (tabelas (snd r)) !! outro = clientes (vista b) !! outro) /\
   exists c c', clientes (vista b) !! id = Some c /\
     clientes (tabelas (snd r)) !! id = Some c' /\
     ClienteItem_ID c' = ClienteItem_ID c /\
     ClienteItem_Nome c' = ClienteItem_Nome c /\
     ClienteItem_Email c' = ClienteItem_Email c /\
     ClienteItem_CreatedAt c' = ClienteItem_CreatedAt c).
Proof.
  intros r. subst r.
  unfold dynamodb.UpdateLimite, dynamodb.currentTimeMillis, bind.
  destruct (responde b) eqn:Hr.
  - rewrite (pedido_responde _ _ Hr). unfold dynamodb.UpdateItem_limite.
    destruct (clientes (vista b) !! id) as [c|] eqn:Hc; cbn [fst snd errors_As_condErr ret].
    + split; [|split].
      * split; [discriminate|]. intros [_ H]. discriminate H.
      * intros H. exfalso. apply H. reflexivity.
      * intros _. cbn [tabelas com_tabelas clientes transacoes com_clientes].
        split; [reflexivity|]. split.
        -- intros outro Hne. apply lookup_insert_ne. congruence.
        -- exists c. eexists. rewrite lookup_insert_eq. repeat split.
    + split; [|split].
      * split; [intros _; split; reflexivity|reflexivity].
      * intros _. rewrite so_ambiente_1. reflexivity.
      * discriminate.
  - destruct (pedido_falha (dynamodb.UpdateItem_limite id novoLimite
                (dynamodb.Sprintf_d (dynamodb.wrap64 (agora b * 1000)))) b Hr) as [msg ->].
    cbn [fst snd errors_As_condErr ret]. split; [|split].
    + split; [discriminate|]. intros [H _]. discriminate H.
    + reflexivity.
    + discriminate.
Qed.

(** X3: in a quiet environment, for a known customer and a limit that
    fits an [int], [UpdateLimite] succeeds and [GetCliente] then returns
    that customer with the new limit as balance, the rest unchanged. *)
Theorem UpdateLimite_GetCliente (id : string) (novoLimite : Z) (b : Banco) (c : ClienteItem) :
  sossegado b ->
  clientes (tabelas b) !! id = Some c ->
  Float64.in_int novoLimite = true ->
  Float64.in_int (ClienteItem_LimiteCredit c) = true ->
  let b' := snd (dynamodb.UpdateLimite id novoLimite b) in
  fst (dynamodb.UpdateLimite id novoLimite b) = nil /\
  fst (dynamodb.GetCliente id b') =
    inl {| Cliente_ID := ClienteItem_ID c;
           Cliente_Nome := ClienteItem_Nome c;
           Cliente_Email := ClienteItem_Email c;
           Cliente_LimiteCredit := ClienteItem_LimiteCredit c;
           Cliente_LimiteAtual := novoLimite |}.
Proof.
  intros Hq Hc Hn Hl b'. subst b'.
  destruct (UpdateLimite_casos id novoLimite b) as [[e He]|[c' [Hc' ->]]].
  - exfalso. revert He.
    unfold dynamodb.UpdateLimite, dynamodb.currentTimeMillis, bind.
    rewrite (pedido_responde _ _ (sossegado_responde b Hq)).
    unfold dynamodb.UpdateItem_limite. rewrite (sossegado_vista b Hq), Hc. discriminate.
  - rewrite (sossegado_vista b Hq) in *. rewrite Hc in Hc'. injection Hc' as <-.
    cbn [fst snd]. split; [reflexivity|].
    set (b1 := com_tabelas _ _ b).
    assert (Hq1 : sossegado b1) by (apply sossegado_com_tabelas; exact Hq).
    destruct (GetCliente_casos id b1) as [[Hr _]|[[_ [Hn' _]]|[_ [c1 [Hc1 ->]]]]].
    + rewrite (sossegado_responde b1 Hq1) in Hr. discriminate.
    + rewrite (sossegado_vista b1 Hq1) in Hn'. subst b1.
      cbn [tabelas com_tabelas clientes com_clientes] in Hn'.
      rewrite lookup_insert_eq in Hn'. discriminate.
    + rewrite (sossegado_vista b1 Hq1) in Hc1. subst b1.
      cbn [tabelas com_tabelas clientes com_clientes] in Hc1.
      rewrite lookup_insert_eq in Hc1. injection Hc1 as <-.
      cbn [dynamodb.set_limite_atual ClienteItem_LimiteCredit ClienteItem_LimiteAtual].
      rewrite Hl, Hn. reflexivity.
Qed.

(** ** Debits in sequence *)

(** The store of a quiet environment with the balance of [id] set. *)
Lemma debito_sossegado (id : string) (valor : Z) (b : Banco) (c : ClienteItem) :
  sossegado b ->
  clientes (tabelas b) !! id = Some c ->
  (valor <= ClienteItem_LimiteAtual c /\
   exists c', ClienteItem_LimiteAtual c' = ClienteItem_LimiteAtual c - valor /\
     ClienteItem_LimiteCredit c' = ClienteItem_LimiteCredit c /\
     exists b', dynamodb.DebitarLimiteAtomica id valor b = (nil, b') /\
       sossegado b' /\ clientes (tabelas b') !! id = Some c') \/
  (ClienteItem_LimiteAtual c < valor /\
   dynamodb.DebitarLimiteAtomica id valor b = (Some ErrLimiteInsuficiente, b)).
Proof.
  intros Hq Hc.
  destruct (DebitarLimiteAtomica_casos id valor b)
    as [[Hr _]|[[_ [c0 [Hc0 [Hle ->]]]]|[_ [Hn ->]]]].
  - rewrite (sossegado_responde b Hq) in Hr. discriminate.
  - rewrite (sossegado_vista b Hq) in *. rewrite Hc in Hc0. injection Hc0 as <-.
    left. split; [exact Hle|]. eexists. split; [|split; [|eexists; split; [reflexivity|split]]].
    3: apply sossegado_com_tabelas; exact Hq.
    3: cbn [tabelas com_tabelas clientes com_clientes]; apply lookup_insert_eq.
    all: reflexivity.
  - right. rewrite (sossegado_vista b Hq) in Hn.
    assert (Hlt : ClienteItem_LimiteAtual c < valor).
    { destruct (Z_lt_dec (ClienteItem_LimiteAtual c) valor) as [H|H]; [exact H|].
      exfalso. apply Hn. exists c. split; [exact Hc|lia]. }
    split; [exact Hlt|].
    rewrite !(sossegado_so_ambiente _ b Hq). unfold diagnostico.
    rewrite (sossegado_responde b Hq), (sossegado_vista b Hq), Hc.
    destruct (Float64.in_int _ && Float64.in_int _); [|reflexivity].
    destruct (Z.ltb_spec (ClienteItem_LimiteAtual c) valor); [reflexivity|lia].
Qed.

Lemma debitar_todos_sem_saldo (id : string) (valor : Z) (n : nat) (b : Banco) (c : ClienteItem) :
  sossegado b ->
  clientes (tabelas b) !! id = Some c ->
  ClienteItem_LimiteAtual c < valor ->
  provisionamento.debitar_todos id (repeat valor n) b =
    (repeat (Some ErrLimiteInsuficiente) n, b).
Proof.
  intros Hq Hc Hlt. induction n as [|n IH]; [reflexivity|].
  cbn [repeat provisionamento.debitar_todos]. unfold bind.
  destruct (debito_sossegado id valor b c Hq Hc) as [[Hle _]|[_ ->]]; [lia|].
  rewrite IH. reflexivity.
Qed.

(** X4: [n] debits of the same positive amount, one after the other in
    a quiet environment, against a balance [B >= 0]: the first
    [min n (B / valor)] return [nil], every later one returns
    [ErrLimiteInsuficiente], and the balance ends at
    [B - valor * min n (B / valor)], which is not negative. *)
Theorem debitar_todos_iguais (id : string) (valor : Z) (n : nat) (b : Banco) (c : ClienteItem) :
  sossegado b ->
  clientes (tabelas b) !! id = Some c ->
  0 <= ClienteItem_LimiteAtual c ->
  0 < valor ->
  let k := Nat.min n (Z.to_nat (ClienteItem_LimiteAtual c / valor)) in
  let r := provisionamento.debitar_todos id (repeat valor n) b in
  fst r = (repeat nil k ++ repeat (Some ErrLimiteInsuficiente) (n - k))%list /\
  exists c', clientes (tabelas (snd r)) !! id = Some c' /\
    ClienteItem_LimiteAtual c' = ClienteItem_LimiteAtual c - valor * Z.of_nat k /\
    0 <= ClienteItem_LimiteAtual c'.
Proof.
  intros Hq Hc Hb Hv. revert b c Hq Hc Hb.
  induction n as [|n IH]; intros b c Hq Hc Hb k r; subst k r.
  - cbn. split; [reflexivity|]. exists c. split; [exact Hc|]. lia.
  - cbn [repeat provisionamento.debitar_todos]. unfold bind.
    destruct (debito_sossegado id valor b c Hq Hc)
      as [[Hle [c' [Hbal [_ [b' [-> [Hq' Hc']]]]]]]|[Hlt ->]].
    + assert (Hb' : 0 <= ClienteItem_LimiteAtual c') by lia.
      specialize (IH b' c' Hq' Hc' Hb').
      destruct (provisionamento.debitar_todos id (repeat valor n) b') as [es b''].
      cbn [fst snd] in *. destruct IH as [-> [c'' [Hc'' [Hbal'' Hpos'']]]].
      assert (Hdiv : ClienteItem_LimiteAtual c / valor = ClienteItem_LimiteAtual c' / valor + 1).
      { rewrite Hbal.
        replace (ClienteItem_LimiteAtual c) with ((ClienteItem_LimiteAtual c - valor) + 1 * valor) at 1 by lia.
        rewrite Z.div_add by lia. reflexivity. }
      assert (Hq0 : 0 <= ClienteItem_LimiteAtual c' / valor) by (apply Z.div_pos; lia).
      assert (Hk : Nat.min (S n) (Z.to_nat (ClienteItem_LimiteAtual c / valor)) =
                   S (Nat.min n (Z.to_nat (ClienteItem_LimiteAtual c' / valor)))).
      { rewrite Hdiv, Z2Nat.inj_add by lia. change (Z.to_nat 1) with 1%nat. lia. }
      rewrite Hk. cbn [repeat app Nat.sub]. split; [reflexivity|].
      exists c''. split; [exact Hc''|]. split; [|exact Hpos'']. rewrite Hbal'', Hbal. lia.
    + rewrite (debitar_todos_sem_saldo id valor n b c Hq Hc Hlt). cbn [fst snd].
      assert (Hz : ClienteItem_LimiteAtual c / valor = 0) by (apply Z.div_small; lia).
      rewrite Hz. cbn [Z.to_nat]. rewrite Nat.min_0_r. cbn [repeat app Nat.sub].
      split; [reflexivity|]. exists c. split; [exact Hc|]. lia.
Qed.

(** X5: whatever the amounts, negative ones included, debits issued one
    after the other in a quiet environment against a balance that is not
    negative give one answer each, never drive the balance below zero and
    never change the ceiling. *)
Theorem debitar_todos_nunca_negativo (id : string) (valores : list Z) (b : Banco) (c : ClienteItem) :
  sossegado b ->
  clientes (tabelas b) !! id = Some c ->
  0 <= ClienteItem_LimiteAtual c ->
  let r := provisionamento.debitar_todos id valores b in
  length (fst r) = length valores /\
  exists c', clientes (tabelas (snd r)) !! id = Some c' /\
    0 <= ClienteItem_LimiteAtual c' /\
    ClienteItem_LimiteCredit c' = ClienteItem_LimiteCredit c.
Proof.
  revert b c. induction valores as [|v vs IH]; intros b c Hq Hc Hb r; subst r.
  - cbn. split; [reflexivity|]. exists c. repeat split; assumption.
  - cbn [provisionamento.debitar_todos]. unfold bind.
    destruct (debito_sossegado id v b c Hq Hc)
      as [[Hle [c' [Hbal [Hcred [b' [-> [Hq' Hc']]]]]]]|[Hlt ->]].
    + assert (Hb' : 0 <= ClienteItem_LimiteAtual c') by lia.
      specialize (IH b' c' Hq' Hc' Hb').
      destruct (provisionamento.debitar_todos id vs b') as [es b''].
      cbn [fst snd] in *. destruct IH as [Hlen [c'' [Hc'' [Hpos Hcr]]]].
      split; [cbn; lia|]. exists c''. repeat split; try assumption. congruence.
    + specialize (IH b c Hq Hc Hb).
      destruct (provisionamento.debitar_todos id vs b) as [es b''].
      cbn [fst snd] in *. destruct IH as [Hlen [c'' [Hc'' [Hpos Hcr]]]].
      split; [cbn; lia|]. exists c''. repeat split; assumption.
Qed.

(** ** The log: append and read *)

Lemma tabelas_so_ambiente_1 (b : Banco) : tabelas (so_ambiente 1 b) = vista b.
Proof. reflexivity. Qed.

(** X6: [Save] never overwrites. The customers table and every other
    record of the log are left as the request found them; when the id is
    already in the log the call fails and the stored record stays; when
    the call succeeds the id was new and the log now holds the item built
    from the entity. *)
Theorem Save_nao_sobrescreve (t : Transacao) (b : Banco) :
  let r := dynamodb.Save t b in
  clientes (tabelas (snd r)) = clientes (vista b) /\
  (forall outro, outro <> Transacao_ID t ->
     transacoes (tabelas (snd r)) !! outro = transacoes (vista b) !! outro) /\
  (forall item, transacoes (vista b) !! Transacao_ID t = Some item ->
     fst r <> nil /\ transacoes (tabelas (snd r)) !! Transacao_ID t = Some item) /\
  (fst r = nil ->
   transacoes (vista b) !! Transacao_ID t = None /\
   transacoes (tabelas (snd r)) !! Transacao_ID t = Some (dynamodb.transacaoToItem t)).
Proof.
  intros r. subst r.
  destruct (Save_casos t b) as [[_ [msg ->]]|[[_ [Hn ->]]|[_ [[item Hi] ->]]]];
    cbn [fst snd]; rewrite ?tabelas_so_ambiente_1;
    cbn [tabelas com_tabelas clientes transacoes com_transacoes].
  - split; [reflexivity|]. split; [reflexivity|]. split.
    + intros item Hi. split; [discriminate|exact Hi].
    + discriminate.
  - split; [reflexivity|]. split; [|split].
    + intros outro Hne. apply lookup_insert_ne. congruence.
    + intros item Hi. congruence.
    + intros _. split; [exact Hn|apply lookup_insert_eq].
  - split; [reflexivity|]. split; [reflexivity|]. split.
    + intros item' Hi'. split; [discriminate|exact Hi'].
    + discriminate.
Qed.




Lemma wrap64_dentro (z : Z) :
  Float64.min_int <= z <= Float64.max_int -> dynamodb.wrap64 z = z.
Proof.
  unfold dynamodb.wrap64, Float64.min_int, Float64.max_int. intros H.
  rewrite Z.mod_small; lia.
Qed.

(** X9: when the timestamp plus 90 days fits an [int64], the item a
    successful [Save] stores expires exactly 90 days (7776000 seconds)
    after the timestamp of the transaction, and carries its status. *)
Theorem Save_TTL_90_dias (t : Transacao) (b : Banco) :
  Float64.min_int <= Transacao_Timestamp t ->
  Transacao_Timestamp t + 7776000 <= Float64.max_int ->
  fst (dynamodb.Save t b) = nil ->
  exists item, transacoes (tabelas (snd (dynamodb.Save t b))) !! Transacao_ID t = Some item /\
    TransacaoItem_TTL item = Transacao_Timestamp t + 90 * (24 * 60 * 60) /\
    TransacaoItem_Status item = Transacao_Status t.
Proof.
  intros Hmin Hmax Hs.
  destruct (Save_casos t b) as [[_ [msg He]]|[[_ [_ He]]|[_ [_ He]]]];
    rewrite He in Hs |- *; try discriminate Hs.
  cbn [snd tabelas com_tabelas transacoes com_transacoes].
  eexists. rewrite lookup_insert_eq. split; [reflexivity|].
  cbn [dynamodb.transacaoToItem TransacaoItem_TTL TransacaoItem_Status].
  split; [|reflexivity]. apply wrap64_dentro. unfold Float64.min_int, Float64.max_int in *. lia.
Qed.

(** ** Provisioning *)

Lemma CreateCliente_casos (cliente : Cliente) (createdAt updatedAt : string) (b : Banco) :
  let id := Cliente_ID cliente in
  let item :=
    {| ClienteItem_ID := Cliente_ID cliente;
       ClienteItem_Nome := Cliente_Nome cliente;
       ClienteItem_Email := Cliente_Email cliente;
       ClienteItem_LimiteCredit := Cliente_LimiteCredit cliente;
       ClienteItem_LimiteAtual := Cliente_LimiteAtual cliente;
       ClienteItem_CreatedAt := createdAt;
       ClienteItem_UpdatedAt := updatedAt |} in
  (responde b = false /\
   exists msg, provisionamento.CreateCliente cliente createdAt updatedAt b =
     (Some (Errorf_w "erro ao criar cliente" (ErroSDK msg)), so_ambiente 1 b)) \/
  (responde b = true /\ clientes (vista b) !! id = None /\
   provisionamento.CreateCliente cliente createdAt updatedAt b =
     (nil, com_tabelas (com_clientes (<[id := item]> (clientes (vista b))) (vista b))
             (tail (roteiro b)) b)) \/
  (responde b = true /\ (exists c, clientes (vista b) !! id = Some c) /\
   provisionamento.CreateCliente cliente createdAt updatedAt b =
     (Some (Errorf (String.append "cliente " (String.append id " já existe"))),
      so_ambiente 1 b)).
Proof.
  intros id item. unfold provisionamento.CreateCliente, bind. fold item.
  destruct (responde b) eqn:Hr.
  - right. rewrite (pedido_responde _ _ Hr). unfold provisionamento.PutItem_cliente.
    change (ClienteItem_ID item) with id.
    destruct (clientes (vista b) !! id) as [c|] eqn:Hc.
    + right. split; [reflexivity|]. split; [exists c; reflexivity|]. reflexivity.
    + left. repeat split.
  - left. split; [reflexivity|].
    destruct (pedido_falha (provisionamento.PutItem_cliente item) b Hr) as [msg ->].
    exists msg. reflexivity.
Qed.

(** X10: [CreateCliente] never overwrites. It succeeds exactly when the
    request reaches the store and the id is new; the log and every other
    customer are left as they were; and when the id exists the call fails
    and the stored record stays. *)
Theorem CreateCliente_nao_sobrescreve
    (cliente : Cliente) (createdAt updatedAt : string) (b : Banco) :
  let r := provisionamento.CreateCliente cliente createdAt updatedAt b in
  transacoes (tabelas (snd r)) = transacoes (vista b) /\
  (forall outro, outro <> Cliente_ID cliente ->
     clientes (tabelas (snd r)) !! outro = clientes (vista b) !! outro) /\
  (forall c, clientes (vista b) !! Cliente_ID cliente = Some c ->
     fst r <> nil /\ clientes (tabelas (snd r)) !! Cliente_ID cliente = Some c) /\
  (fst r = nil <-> responde b = true /\ clientes (vista b) !! Cliente_ID cliente = None).
Proof.
  intros r. subst r.
  destruct (CreateCliente_casos cliente createdAt updatedAt b)
    as [[Hr [msg ->]]|[[Hr [Hn ->]]|[Hr [[c Hc] ->]]]];
    cbn [fst snd]; rewrite ?tabelas_so_ambiente_1;
    cbn [tabelas com_tabelas clientes transacoes com_clientes].
  - split; [reflexivity|]. split; [reflexivity|]. split.
    + intros c Hc. split; [discriminate|exact Hc].
    + split; [discriminate|]. intros [H _]. congruence.
  - split; [reflexivity|]. split; [|split].
    + intros outro Hne. apply lookup_insert_ne. congruence.
    + intros c Hc. congruence.
    + split; [intros _; split; assumption|reflexivity].
  - split; [reflexivity|]. split; [reflexivity|]. split.
    + intros c' Hc'. split; [discriminate|exact Hc'].
    + split; [discriminate|]. intros [_ H]. congruence.
Qed.

(** X11: in a quiet environment, a customer with a new id whose ceiling
    and balance fit an [int] is created and [GetCliente] then returns
    exactly that customer. *)
Theorem CreateCliente_GetCliente
    (cliente : Cliente) (createdAt updatedAt : string) (b : Banco) :
  sossegado b ->
  clientes (tabelas b) !! Cliente_ID cliente = None ->
  Float64.in_int (Cliente_LimiteCredit cliente) = true ->
  Float64.in_int (Cliente_LimiteAtual cliente) = true ->
  let b' := snd (provisionamento.CreateCliente cliente createdAt updatedAt b) in
  fst (provisionamento.CreateCliente cliente createdAt updatedAt b) = nil /\
  fst (dynamodb.GetCliente (Cliente_ID cliente) b') = inl cliente.
Proof.
  intros Hq Hn H1 H2 b'. subst b'.
  destruct (CreateCliente_casos cliente createdAt updatedAt b)
    as [[Hr _]|[[_ [_ ->]]|[_ [[c Hc] _]]]].
  - rewrite (sossegado_responde b Hq) in Hr. discriminate.
  - cbn [fst snd]. split; [reflexivity|].
    set (b1 := com_tabelas _ _ b).
    assert (Hq1 : sossegado b1) by (apply sossegado_com_tabelas; exact Hq).
    destruct (GetCliente_casos (Cliente_ID cliente) b1) as [[Hr _]|[[_ [Hn' _]]|[_ [c1 [Hc1 ->]]]]].
    + rewrite (sossegado_responde b1 Hq1) in Hr. discriminate.
    + rewrite (sossegado_vista b1 Hq1) in Hn'. subst b1.
      cbn [tabelas com_tabelas clientes com_clientes] in Hn'.
      rewrite lookup_insert_eq in Hn'. discriminate.
    + rewrite (sossegado_vista b1 Hq1) in Hc1. subst b1.
      cbn [tabelas com_tabelas clientes com_clientes] in Hc1.
      rewrite lookup_insert_eq in Hc1. injection Hc1 as <-.
      cbn [ClienteItem_LimiteCredit ClienteItem_LimiteAtual]. rewrite H1, H2.
      destruct cliente. reflexivity.
  - rewrite (sossegado_vista b Hq) in Hc. congruence.
Qed.

(** ** The orchestrator, path by path *)

Lemma Save_clientes (t : Transacao) (b : Banco) :
  clientes (tabelas (snd (dynamodb.Save t b))) = clientes (vista b).
Proof.
  destruct (Save_casos t b) as [[_ [msg ->]]|[[_ [_ ->]]|[_ [_ ->]]]]; reflexivity.
Qed.

Lemma Save_novo (t : Transacao) (b : Banco) :
  responde b = true ->
  transacoes (vista b) !! Transacao_ID t = None ->
  fst (dynamodb.Save t b) = nil /\
  transacoes (tabelas (snd (dynamodb.Save t b))) !! Transacao_ID t =
    Some (dynamodb.transacaoToItem t).
Proof.
  intros Hr Hn.
  destruct (Save_casos t b) as [[Hf _]|[[_ [_ ->]]|[_ [[item Hi] _]]]]; [congruence| |congruence].
  split; [reflexivity|]. cbn [snd tabelas com_tabelas transacoes com_transacoes].
  apply lookup_insert_eq.
Qed.

(** X12: a transaction that fails validation never reaches the ledger.
    [AutorizarTransacao] returns the validation error and the entity
    rejected; its only request to the store is the append of the rejected
    entity, so the customers table is what the environment made of it; and
    the log holds the rejected record when that append reaches the store
    with a new id. *)
Theorem AutorizarTransacao_invalida_sem_debito
    (int_indef : Z) (t : Transacao) (w : World) (e : err) :
  Valida t = Some e ->
  let r := service.AutorizarTransacao int_indef t w in
  fst r = (Rejeitar t, Some e) /\
  clientes (tabelas (banco (snd r))) = clientes (vista (banco w)) /\
  banco (snd r) = snd (dynamodb.Save (Rejeitar t) (banco w)) /\
  (responde (banco w) = true ->
   transacoes (vista (banco w)) !! Transacao_ID t = None ->
   transacoes (tabelas (banco (snd r))) !! Transacao_ID t =
     Some (dynamodb.transacaoToItem (Rejeitar t))).
Proof.
  intros Hv r. subst r.
  destruct (Autorizar_invalida int_indef t w e Hv) as [Hr [Hb _]].
  rewrite Hr, Hb. split; [reflexivity|]. split; [apply Save_clientes|]. split; [reflexivity|].
  intros Hresp Hn. apply (Save_novo (Rejeitar t) (banco w) Hresp Hn).
Qed.

(** X13: the entity [AutorizarTransacao] leaves is always terminal,
    APROVADA or REJEITADA; it is APROVADA exactly when validation passed
    and the atomic debit returned [nil] (whatever the append did after);
    and its id, customer, amount, timestamp and correlation id are those
    it came with. *)
Theorem AutorizarTransacao_status_terminal (int_indef : Z) (t : Transacao) (w : World) :
  let t' := fst (fst (service.AutorizarTransacao int_indef t w)) in
  (Transacao_Status t' = StatusAprovada \/ Transacao_Status t' = StatusRejeitada) /\
  (Transacao_Status t' = StatusAprovada <->
   Valida t = nil /\
   fst (dynamodb.DebitarLimiteAtomica (Transacao_ClienteID t)
          (service.valorCentavos int_indef t) (banco w)) = nil) /\
  Transacao_ID t' = Transacao_ID t /\
  Transacao_ClienteID t' = Transacao_ClienteID t /\
  Transacao_Valor t' = Transacao_Valor t /\
  Transacao_Timestamp t' = Transacao_Timestamp t /\
  Transacao_CorrelationID t' = Transacao_CorrelationID t.
Proof.
  intros t'. subst t'.
  destruct (Valida t) as [e|] eqn:Hv.
  { destruct (Autorizar_invalida int_indef t w e Hv) as [-> _]. cbn.
    split; [right; reflexivity|]. split; [|repeat split].
    split; [discriminate|]. intros [H _]. discriminate H. }
  destruct (dynamodb.DebitarLimiteAtomica (Transacao_ClienteID t)
              (service.valorCentavos int_indef t) (banco w)) as [[e|] b1] eqn:Hd.
  - destruct (Autorizar_debito_falha int_indef t w e b1 Hv Hd) as [-> _]. cbn.
    split; [right; reflexivity|]. split; [|repeat split].
    split; [discriminate|]. intros [_ H]. discriminate H.
  - destruct (Autorizar_debito_ok int_indef t w b1 Hv Hd) as [-> _]. cbn.
    split; [left; reflexivity|]. repeat split.
Qed.

(** X14: when the debit has been applied and the append of the approved
    entity fails, [AutorizarTransacao] returns the error of the append with
    the entity APROVADA, the failed append leaves the debited customers
    table as it is (nothing is given back), and no goroutine is started,
    so no event is published. *)
Theorem AutorizarTransacao_debitada_sem_registro
    (int_indef : Z) (t : Transacao) (w : World) (e : err) :
  Valida t = nil ->
  fst (dynamodb.DebitarLimiteAtomica (Transacao_ClienteID t)
         (service.valorCentavos int_indef t) (banco w)) = nil ->
  let b1 := snd (dynamodb.DebitarLimiteAtomica (Transacao_ClienteID t)
                   (service.valorCentavos int_indef t) (banco w)) in
  fst (dynamodb.Save (Aprovar t) b1) = Some e ->
  let r := service.AutorizarTransacao int_indef t w in
  fst r = (Aprovar t, Some e) /\
  clientes (tabelas (banco (snd r))) = clientes (vista b1) /\
  pendentes (snd r) = pendentes w.
Proof.
  intros Hv Hd b1 Hs r. subst b1 r.
  destruct (dynamodb.DebitarLimiteAtomica (Transacao_ClienteID t)
              (service.valorCentavos int_indef t) (banco w)) as [e' b1] eqn:Hdeb.
  cbn [fst snd] in *. subst e'.
  destruct (Autorizar_debito_ok int_indef t w b1 Hv Hdeb) as [Hr [Hb Hp]].
  rewrite Hr, Hb, Hp, Hs. split; [reflexivity|]. split; [apply Save_clientes|].
  apply app_nil_r.
Qed.

Lemma debito_desconhecido (id : string) (valor : Z) (b : Banco) :
  sossegado b ->
  clientes (tabelas b) !! id = None ->
  dynamodb.DebitarLimiteAtomica id valor b = (Some ErrClienteNaoEncontrado, b).
Proof.
  intros Hq Hn.
  destruct (DebitarLimiteAtomica_casos id valor b)
    as [[Hr _]|[[_ [c0 [Hc0 _]]]|[_ [_ ->]]]].
  - rewrite (sossegado_responde b Hq) in Hr. discriminate.
  - rewrite (sossegado_vista b Hq) in Hc0. congruence.
  - rewrite !(sossegado_so_ambiente _ b Hq). unfold diagnostico.
    rewrite (sossegado_responde b Hq), (sossegado_vista b Hq), Hn. reflexivity.
Qed.

(** X15: in a quiet environment, a valid transaction with a new id for
    a customer whose balance covers the amount in minor units is approved:
    [nil] is returned, the balance is reduced by exactly that amount with
    the ceiling kept, the log holds the approved item, and one goroutine
    is started, for the approval event. *)
Theorem AutorizarTransacao_aprovada
    (int_indef : Z) (t : Transacao) (w : World) (c : ClienteItem) :
  sossegado (banco w) ->
  Valida t = nil ->
  clientes (tabelas (banco w)) !! Transacao_ClienteID t = Some c ->
  service.valorCentavos int_indef t <= ClienteItem_LimiteAtual c ->
  transacoes (tabelas (banco w)) !! Transacao_ID t = None ->
  let r := service.AutorizarTransacao int_indef t w in
  fst r = (Aprovar t, nil) /\
  (exists c', clientes (tabelas (banco (snd r))) !! Transacao_ClienteID t = Some c' /\
     ClienteItem_LimiteAtual c' = ClienteItem_LimiteAtual c - service.valorCentavos int_indef t /\
     ClienteItem_LimiteCredit c' = ClienteItem_LimiteCredit c) /\
  transacoes (tabelas (banco (snd r))) !! Transacao_ID t =
    Some (dynamodb.transacaoToItem (Aprovar t)) /\
  pendentes (snd r) = (pendentes w ++ [GoPublicarEvento (Aprovar t)])%list.
Proof.
  intros Hq Hv Hc Hle Hn r. subst r.
  destruct (debito_sossegado (Transacao_ClienteID t) (service.valorCentavos int_indef t)
              (banco w) c Hq Hc)
    as [[_ [c' [Hbal [Hcred [b' [Hd [Hq' Hc']]]]]]]|[Hlt _]]; [|lia].
  destruct (Autorizar_debito_ok int_indef t w b' Hv Hd) as [Hr [Hb Hp]].
  assert (Hlog : transacoes (vista b') !! Transacao_ID (Aprovar t) = None).
  { rewrite (sossegado_vista b' Hq').
    destruct (DebitarLimiteAtomica_casos (Transacao_ClienteID t)
                (service.valorCentavos int_indef t) (banco w))
      as [[_ [msg He]]|[[_ [c0 [_ [_ He]]]]|[_ [_ He]]]]; rewrite He in Hd; try discriminate Hd.
    injection Hd as <-. cbn [tabelas com_tabelas transacoes com_clientes].
    rewrite (sossegado_vista (banco w) Hq). exact Hn. }
  destruct (Save_novo (Aprovar t) b' (sossegado_responde b' Hq') Hlog) as [Hs Hitem].
  rewrite Hr, Hb, Hp, Hs. split; [reflexivity|]. split; [|split; [exact Hitem|reflexivity]].
  exists c'. rewrite Save_clientes, (sossegado_vista b' Hq'). repeat split; assumption.
Qed.

(** X16: in a quiet environment, a valid transaction with a new id for
    a customer whose balance is below the amount in minor units is
    rejected with [ErrLimiteInsuficiente]: the customers table is
    unchanged, the log holds the rejected item, and one goroutine is
    started, for the rejection event. *)
Theorem AutorizarTransacao_limite_insuficiente
    (int_indef : Z) (t : Transacao) (w : World) (c : ClienteItem) :
  sossegado (banco w) ->
  Valida t = nil ->
  clientes (tabelas (banco w)) !! Transacao_ClienteID t = Some c ->
  ClienteItem_LimiteAtual c < service.valorCentavos int_indef t ->
  transacoes (tabelas (banco w)) !! Transacao_ID t = None ->
  let r := service.AutorizarTransacao int_indef t w in
  fst r = (Rejeitar t, Some ErrLimiteInsuficiente) /\
  clientes (tabelas (banco (snd r))) = clientes (tabelas (banco w)) /\
  transacoes (tabelas (banco (snd r))) !! Transacao_ID t =
    Some (dynamodb.transacaoToItem (Rejeitar t)) /\
  pendentes (snd r) =
    (pendentes w ++ [GoPublicarEventoRejeicao (Rejeitar t) ErrLimiteInsuficiente])%list.
Proof.
  intros Hq Hv Hc Hlt Hn r. subst r.
  destruct (debito_sossegado (Transacao_ClienteID t) (service.valorCentavos int_indef t)
              (banco w) c Hq Hc) as [[Hle _]|[_ Hd]]; [lia|].
  destruct (Autorizar_debito_falha int_indef t w _ _ Hv Hd) as [Hr [Hb Hp]].
  rewrite <- (sossegado_vista (banco w) Hq) in Hn.
  destruct (Save_novo (Rejeitar t) (banco w) (sossegado_responde _ Hq) Hn) as [_ Hitem].
  rewrite Hr, Hb, Hp. split; [reflexivity|].
  rewrite Save_clientes, (sossegado_vista (banco w) Hq). repeat split. exact Hitem.
Qed.

(** X17: in a quiet environment, a valid transaction with a new id for
    an unknown customer is rejected with [ErrClienteNaoEncontrado]: the
    customers table is unchanged (no record is created) and the log holds
    the rejected item. *)
Theorem AutorizarTransacao_cliente_desconhecido
    (int_indef : Z) (t : Transacao) (w : World) :
  sossegado (banco w) ->
  Valida t = nil ->
  clientes (tabelas (banco w)) !! Transacao_ClienteID t = None ->
  transacoes (tabelas (banco w)) !! Transacao_ID t = None ->
  let r := service.AutorizarTransacao int_indef t w in
  fst r = (Rejeitar t, Some ErrClienteNaoEncontrado) /\
  clientes (tabelas (banco (snd r))) = clientes (tabelas (banco w)) /\
  transacoes (tabelas (banco (snd r))) !! Transacao_ID t =
    Some (dynamodb.transacaoToItem (Rejeitar t)).
Proof.
  intros Hq Hv Hc Hn r. subst r.
  pose proof (debito_desconhecido (Transacao_ClienteID t) (service.valorCentavos int_indef t)
                (banco w) Hq Hc) as Hd.
  destruct (Autorizar_debito_falha int_indef t w _ _ Hv Hd) as [Hr [Hb _]].
  rewrite <- (sossegado_vista (banco w) Hq) in Hn.
  destruct (Save_novo (Rejeitar t) (banco w) (sossegado_responde _ Hq) Hn) as [_ Hitem].
  rewrite Hr, Hb. split; [reflexivity|].
  rewrite Save_clientes, (sossegado_vista (banco w) Hq). split; [reflexivity|exact Hitem].
Qed.

(** ** Events *)

Lemma Autorizar_publicador (int_indef : Z) (t : Transacao) (w : World) :
  falha_publicacao (snd (service.AutorizarTransacao int_indef t w)) = falha_publicacao w /\
  publicados (snd (service.AutorizarTransacao int_indef t w)) = publicados w.
Proof.
  desdobrar.
  destruct (Valida t) as [e|]; desdobrar.
  - destruct (dynamodb.Save (Rejeitar t) (banco w)) as [[es|] b2]; split; reflexivity.
  - destruct (dynamodb.DebitarLimiteAtomica _ _ (banco w)) as [[e|] b1].
    + destruct (errors_Is e ErrLimiteInsuficiente); desdobrar;
        destruct (dynamodb.Save (Rejeitar t) b1) as [[es|] b2]; split; reflexivity.
    + desdobrar. destruct (dynamodb.Save (Aprovar t) b1) as [[es|] b2]; split; reflexivity.
Qed.

(** What one goroutine leaves, by the answer of the publisher. *)
Lemma executar_aceite (g : Goroutine) (w : World) :
  let t := match g with GoPublicarEvento t => t | GoPublicarEventoRejeicao t _ => t end in
  falha_publicacao w (ToEvento t) = None ->
  publicados (snd (service.executar g w)) = (publicados w ++ [ToEvento t])%list /\
  falha_publicacao (snd (service.executar g w)) = falha_publicacao w.
Proof.
  intros t Hf. subst t.
  destruct g as [t|t motivo]; unfold service.executar; desdobrar; unfold publicar;
    cbn -[ToEvento]; rewrite Hf; split; reflexivity.
Qed.

Lemma executar_recusa (g : Goroutine) (w : World) (msg : string) :
  let t := match g with GoPublicarEvento t => t | GoPublicarEventoRejeicao t _ => t end in
  falha_publicacao w (ToEvento t) = Some msg ->
  publicados (snd (service.executar g w)) = publicados w /\
  falha_publicacao (snd (service.executar g w)) = falha_publicacao w /\
  exists antes depois,
    saida (snd (service.executar g w)) =
      (saida w ++ antes ++ [RCounter "error_count" "event_publish_error"] ++ depois)%list.
Proof.
  intros t Hf. subst t.
  destruct g as [t|t motivo]; unfold service.executar; desdobrar; unfold publicar;
    cbn -[ToEvento]; rewrite Hf; cbn -[ToEvento]; (split; [reflexivity|]); (split; [reflexivity|]).
  - eexists [_; _], [_]. rewrite <- !app_assoc. reflexivity.
  - eexists [_; _], [_]. rewrite <- !app_assoc. reflexivity.
Qed.

Lemma atender_um (int_indef : Z) (t : Transacao) (w : World) (g : Goroutine) :
  pendentes (snd (service.AutorizarTransacao int_indef t w)) = [g] ->
  snd (atender int_indef t w) =
    snd (service.executar g (esvaziar (snd (service.AutorizarTransacao int_indef t w)))).
Proof.
  unfold atender. destruct (service.AutorizarTransacao int_indef t w) as [r w1].
  cbn [snd]. intros ->. cbn [executar_todas]. unfold bind, ret.
  destruct (service.executar g (esvaziar w1)) as [u w2]. reflexivity.
Qed.

Lemma atender_nenhum (int_indef : Z) (t : Transacao) (w : World) :
  pendentes (snd (service.AutorizarTransacao int_indef t w)) = [] ->
  snd (atender int_indef t w) = esvaziar (snd (service.AutorizarTransacao int_indef t w)).
Proof.
  unfold atender. destruct (service.AutorizarTransacao int_indef t w) as [r w1].
  cbn [snd]. intros ->. reflexivity.
Qed.

(** The goroutine a call starts, by the outcome it returns. *)
Lemma Autorizar_goroutine (int_indef : Z) (t : Transacao) (w : World) :
  pendentes w = [] ->
  let r := service.AutorizarTransacao int_indef t w in
  pendentes (snd r) =
    match snd (fst r) with
    | None => [GoPublicarEvento (fst (fst r))]
    | Some e =>
        if String.eqb (Transacao_Status (fst (fst r))) StatusRejeitada
        then [GoPublicarEventoRejeicao (fst (fst r)) e]
        else []
    end.
Proof.
  intros Hp r. subst r.
  destruct (Valida t) as [e|] eqn:Hv.
  { destruct (Autorizar_invalida int_indef t w e Hv) as [-> [_ ->]]. rewrite Hp. reflexivity. }
  destruct (dynamodb.DebitarLimiteAtomica (Transacao_ClienteID t)
              (service.valorCentavos int_indef t) (banco w)) as [[e|] b1] eqn:Hd.
  - destruct (Autorizar_debito_falha int_indef t w e b1 Hv Hd) as [-> [_ ->]].
    rewrite Hp. reflexivity.
  - destruct (Autorizar_debito_ok int_indef t w b1 Hv Hd) as [-> [_ ->]].
    rewrite Hp. cbn [fst snd]. destruct (fst (dynamodb.Save (Aprovar t) b1)); reflexivity.
Qed.

(** X18: with a publisher that accepts every event and no goroutine
    pending before, a request served to the end publishes one event, built
    from the entity it leaves, when it returns [nil] (type
    TRANSACAO_APROVADA) or leaves the entity rejected (type
    TRANSACAO_REJEITADA), and publishes nothing in the remaining case, the
    approved entity whose append failed. *)
Theorem atender_publica_o_resultado (int_indef : Z) (t : Transacao) (w : World) :
  pendentes w = [] ->
  (forall ev, falha_publicacao w ev = None) ->
  let r := atender int_indef t w in
  let t' := fst (fst r) in
  publicados (snd r) =
    (publicados w ++
     match snd (fst r) with
     | None => [ToEvento t']
     | Some _ => if String.eqb (Transacao_Status t') StatusRejeitada then [ToEvento t'] else []
     end)%list /\
  (snd (fst r) = nil -> Evento_Evento (ToEvento t') = EventoTransacaoAprovada) /\
  (Transacao_Status t' = StatusRejeitada ->
   Evento_Evento (ToEvento t') = EventoTransacaoRejeitada).
Proof.
  intros Hp Hf r t'. subst r t'.
  destruct (atender_resultado int_indef t w) as [Hfst _]. rewrite Hfst.
  pose proof (Autorizar_goroutine int_indef t w Hp) as Hg. cbn zeta in Hg.
  destruct (Autorizar_publicador int_indef t w) as [Hfp Hpub].
  split; [|split].
  - destruct (snd (fst (service.AutorizarTransacao int_indef t w))) as [e|].
    + destruct (String.eqb _ StatusRejeitada).
      * rewrite (atender_um _ _ _ _ Hg).
        destruct (executar_aceite (GoPublicarEventoRejeicao
                    (fst (fst (service.AutorizarTransacao int_indef t w))) e)
                    (esvaziar (snd (service.AutorizarTransacao int_indef t w)))) as [-> _].
        { cbn [esvaziar falha_publicacao]. rewrite Hfp. apply Hf. }
        cbn [esvaziar publicados]. rewrite Hpub. reflexivity.
      * rewrite (atender_nenhum _ _ _ Hg). cbn [esvaziar publicados]. rewrite Hpub.
        symmetry. apply app_nil_r.
    + rewrite (atender_um _ _ _ _ Hg).
      destruct (executar_aceite (GoPublicarEvento
                  (fst (fst (service.AutorizarTransacao int_indef t w))))
                  (esvaziar (snd (service.AutorizarTransacao int_indef t w)))) as [-> _].
      { cbn [esvaziar falha_publicacao]. rewrite Hfp. apply Hf. }
      cbn [esvaziar publicados]. rewrite Hpub. reflexivity.
  - intros Hnil.
    assert (Ha : Transacao_Status (fst (fst (service.AutorizarTransacao int_indef t w))) = StatusAprovada).
    { destruct (Valida t) as [e|] eqn:Hv.
      { destruct (Autorizar_invalida int_indef t w e Hv) as [Hr _]. rewrite Hr in Hnil. discriminate. }
      destruct (dynamodb.DebitarLimiteAtomica (Transacao_ClienteID t)
                  (service.valorCentavos int_indef t) (banco w)) as [[e|] b1] eqn:Hd.
      - destruct (Autorizar_debito_falha int_indef t w e b1 Hv Hd) as [Hr _].
        rewrite Hr in Hnil. discriminate.
      - destruct (Autorizar_debito_ok int_indef t w b1 Hv Hd) as [Hr _].
        rewrite Hr. reflexivity. }
    unfold ToEvento. rewrite Ha. reflexivity.
  - intros Hrej. unfold ToEvento. rewrite Hrej. reflexivity.
Qed.

(** X19: with a publisher that refuses every event and no goroutine
    pending before, a request served to the end publishes nothing, and
    whenever it returns [nil] or leaves the entity rejected the refusal is
    counted under the error type event_publish_error. *)
Theorem atender_publicacao_recusada (int_indef : Z) (t : Transacao) (w : World) :
  pendentes w = [] ->
  (forall ev, falha_publicacao w ev <> None) ->
  let r := atender int_indef t w in
  publicados (snd r) = publicados w /\
  (snd (fst r) = nil \/ Transacao_Status (fst (fst r)) = StatusRejeitada ->
   In (RCounter "error_count" "event_publish_error") (saida (snd r))).
Proof.
  intros Hp Hf r. subst r.
  destruct (atender_resultado int_indef t w) as [Hfst _]. rewrite Hfst.
  pose proof (Autorizar_goroutine int_indef t w Hp) as Hg. cbn zeta in Hg.
  destruct (Autorizar_publicador int_indef t w) as [Hfp Hpub].
  assert (Hrec : forall g,
            pendentes (snd (service.AutorizarTransacao int_indef t w)) = [g] ->
            publicados (snd (atender int_indef t w)) = publicados w /\
            In (RCounter "error_count" "event_publish_error") (saida (snd (atender int_indef t w)))).
  { intros g Hg1. rewrite (atender_um _ _ _ _ Hg1).
    set (w1 := esvaziar (snd (service.AutorizarTransacao int_indef t w))).
    set (tg := match g with GoPublicarEvento t0 => t0 | GoPublicarEventoRejeicao t0 _ => t0 end).
    destruct (falha_publicacao w1 (ToEvento tg)) as [msg|] eqn:Hm.
    - destruct (executar_recusa g w1 msg Hm) as [-> [_ [antes [depois ->]]]].
      split; [exact Hpub|]. rewrite !in_app_iff. right. right. left. left. reflexivity.
    - exfalso. apply (Hf (ToEvento tg)). rewrite <- Hfp. exact Hm. }
  destruct (snd (fst (service.AutorizarTransacao int_indef t w))) as [e|].
  - destruct (String.eqb (Transacao_Status _) StatusRejeitada) eqn:Hst.
    + destruct (Hrec _ Hg) as [H1 H2]. split; [exact H1|]. intros _. exact H2.
    + rewrite (atender_nenhum _ _ _ Hg). split; [exact Hpub|].
      intros [H|H]; [discriminate H|]. rewrite H in Hst. discriminate Hst.
  - destruct (Hrec _ Hg) as [H1 H2]. split; [exact H1|]. intros _. exact H2.
Qed.

(** ** The answer to the caller *)

Lemma err_eqb_eq (a b : err) : err_eqb a b = true -> a = b.
Proof. destruct a, b; cbn; intros H; try discriminate H; reflexivity. Qed.

Lemma Valida_erros (t : Transacao) (e : err) :
  Valida t = Some e -> e = ErrValorNegativo \/ e = ErrValorZero \/ e = ErrClienteInvalido.
Proof.
  rewrite Valida_sequencia.
  destruct (Float64.ltb _ _); [intros H; injection H as <-; auto|].
  destruct (Float64.eqb _ _); [intros H; injection H as <-; auto|].
  destruct (String.eqb _ _); [intros H; injection H as <-; auto|discriminate].
Qed.

Lemma DebitarLimiteAtomica_erros (id : string) (valor : Z) (b : Banco) (e : err) :
  fst (dynamodb.DebitarLimiteAtomica id valor b) = Some e ->
  e = ErrLimiteInsuficiente \/ e = ErrClienteNaoEncontrado \/
  exists msg interno, e = Errorf_w msg interno.
Proof.
  destruct (DebitarLimiteAtomica_casos id valor b)
    as [[_ [msg ->]]|[[_ [c [_ [_ ->]]]]|[_ [_ ->]]]]; cbn [fst].
  - intros H. injection H as <-. right. right. eauto.
  - discriminate.
  - intros H. injection H as <-. unfold diagnostico.
    destruct (responde _); [|auto].
    destruct (clientes _ !! id) as [c|]; [|auto].
    destruct (Float64.in_int _ && Float64.in_int _); [|auto].
    destruct (_ <? _); [auto|]. right. right. eauto.
Qed.

Lemma Save_erros (t : Transacao) (b : Banco) (e : err) :
  fst (dynamodb.Save t b) = Some e ->
  (exists msg, e = Errorf msg) \/ exists msg interno, e = Errorf_w msg interno.
Proof.
  destruct (Save_casos t b) as [[_ [msg ->]]|[[_ [_ ->]]|[_ [_ ->]]]]; cbn [fst].
  - intros H. injection H as <-. right. eauto.
  - discriminate.
  - intros H. injection H as <-. left. eauto.
Qed.


(** X21: the status code computed from the error [AutorizarTransacao]
    returns is 400 exactly when validation failed, 422 exactly when the
    valid transaction's debit answered [ErrLimiteInsuficiente], 404
    exactly when it answered [ErrClienteNaoEncontrado], and 500 in every
    other case (the debit failed otherwise, or the append of the approved
    entity failed). *)
Theorem AutorizarTransacao_codigo (int_indef : Z) (t : Transacao) (w : World) (e : err) :
  snd (fst (service.AutorizarTransacao int_indef t w)) = Some e ->
  let codigo := fst (fst (awslambda.categorizeError e)) in
  let debito := fst (dynamodb.DebitarLimiteAtomica (Transacao_ClienteID t)
                       (service.valorCentavos int_indef t) (banco w)) in
  (codigo = 400 <-> Valida t <> nil) /\
  (codigo = 422 <-> Valida t = nil /\ debito = Some ErrLimiteInsuficiente) /\
  (codigo = 404 <-> Valida t = nil /\ debito = Some ErrClienteNaoEncontrado) /\
  (codigo = 500 <->
   Valida t = nil /\ debito <> Some ErrLimiteInsuficiente /\
   debito <> Some ErrClienteNaoEncontrado).
Proof.
  intros He codigo debito. subst codigo debito.
  destruct (Valida t) as [ev|] eqn:Hv.
  { destruct (Autorizar_invalida int_indef t w ev Hv) as [Hr _].
    rewrite Hr in He. injection He as <-.
    destruct (Valida_erros t ev Hv) as [-> | [-> | ->]]; cbn;
      repeat split; intros; try discriminate; try tauto;
      match goal with H : _ /\ _ |- _ => destruct H; discriminate end. }
  destruct (dynamodb.DebitarLimiteAtomica (Transacao_ClienteID t)
              (service.valorCentavos int_indef t) (banco w)) as [[ed|] b1] eqn:Hd.
  - destruct (Autorizar_debito_falha int_indef t w ed b1 Hv Hd) as [Hr _].
    rewrite Hr in He. injection He as <-. cbn [fst].
    assert (Hed : fst (dynamodb.DebitarLimiteAtomica (Transacao_ClienteID t)
                        (service.valorCentavos int_indef t) (banco w)) = Some ed)
      by (rewrite Hd; reflexivity).
    destruct (DebitarLimiteAtomica_erros _ _ _ _ Hed) as [-> | [-> | [msg [interno ->]]]]; cbn;
      repeat split; intros; try discriminate; try tauto;
      try (match goal with H : _ /\ _ |- _ => destruct H as [? [? ?]] end; congruence);
      try (match goal with H : _ /\ _ |- _ => destruct H; discriminate end).
  - destruct (Autorizar_debito_ok int_indef t w b1 Hv Hd) as [Hr _].
    rewrite Hr in He. cbn [fst snd] in He.
    destruct (Save_erros _ _ _ He) as [[msg ->]|[msg [interno ->]]]; cbn;
      repeat split; intros; try discriminate; try tauto;
      try (match goal with H : _ /\ _ |- _ => destruct H; discriminate end).
Qed.


(** ** The properties on the sample data *)

Lemma UpdateLimite_GetCliente_5000 :
  sossegado exemplo.banco0 /\
  Cliente_LimiteAtual <$>
    (match fst (dynamodb.GetCliente "C1" (snd (dynamodb.UpdateLimite "C1" 5000 exemplo.banco0))) with
     | inl cliente => Some cliente
     | inr _ => None
     end) = Some 5000.
Proof.
  split; [reflexivity|].
  destruct (UpdateLimite_GetCliente "C1" 5000 exemplo.banco0 exemplo.c1) as [_ H].
  - reflexivity.
  - vm_compute. reflexivity.
  - reflexivity.
  - reflexivity.
  - rewrite H. reflexivity.
Defined.

Lemma debitar_todos_iguais_3000 :
  0 < 3000 /\
  fst (provisionamento.debitar_todos "C1" (repeat 3000 5) exemplo.banco0) =
    [nil; nil; nil; Some ErrLimiteInsuficiente; Some ErrLimiteInsuficiente].
Proof.
  split; [lia|].
  destruct (debitar_todos_iguais "C1" 3000 5 exemplo.banco0 exemplo.c1) as [H _].
  - reflexivity.
  - vm_compute. reflexivity.
  - cbn. lia.
  - lia.
  - exact H.
Defined.

Lemma debitar_todos_nunca_negativo_misto :
  sossegado exemplo.banco0 /\
  length (fst (provisionamento.debitar_todos "C1" [3000; -500; 20000] exemplo.banco0)) = 3%nat.
Proof.
  split; [reflexivity|].
  destruct (debitar_todos_nunca_negativo "C1" [3000; -500; 20000] exemplo.banco0 exemplo.c1)
    as [H _].
  - reflexivity.
  - vm_compute. reflexivity.
  - cbn. lia.
  - exact H.
Defined.


Lemma Save_TTL_90_dias_tx1 :
  1700000000 + 7776000 <= Float64.max_int /\
  exists item,
    transacoes (tabelas (snd (dynamodb.Save exemplo.t_99_90 exemplo.banco0))) !! "tx-1" = Some item /\
    TransacaoItem_TTL item = 1707776000.
Proof.
  split; [vm_compute; discriminate|].
  destruct (Save_TTL_90_dias exemplo.t_99_90 exemplo.banco0) as [item [Hi [Ht _]]].
  - vm_compute. discriminate.
  - vm_compute. discriminate.
  - vm_compute. reflexivity.
  - exists item. split; [exact Hi|exact Ht].
Defined.

Lemma CreateCliente_GetCliente_C2 :
  clientes (tabelas exemplo.banco0) !! "C2" = None /\
  fst (provisionamento.CreateCliente
         {| Cliente_ID := "C2"; Cliente_Nome := "Cliente Dois"; Cliente_Email := "c2@example.com";
            Cliente_LimiteCredit := 5000; Cliente_LimiteAtual := 5000 |}
         "2024-01-02T00:00:00Z" "2024-01-02T00:00:00Z" exemplo.banco0) = nil.
Proof.
  split; [vm_compute; reflexivity|].
  destruct (CreateCliente_GetCliente
              {| Cliente_ID := "C2"; Cliente_Nome := "Cliente Dois"; Cliente_Email := "c2@example.com";
                 Cliente_LimiteCredit := 5000; Cliente_LimiteAtual := 5000 |}
              "2024-01-02T00:00:00Z" "2024-01-02T00:00:00Z" exemplo.banco0) as [H _].
  - reflexivity.
  - vm_compute. reflexivity.
  - reflexivity.
  - reflexivity.
  - exact H.
Defined.

Lemma AutorizarTransacao_invalida_sem_debito_zero :
  Valida (NewTransacao "tx-0" 1700000000 "C1" (Float64.of_Z 0) "corr-0") = Some ErrValorZero /\
  clientes (tabelas (banco (snd (service.AutorizarTransacao 0
      (NewTransacao "tx-0" 1700000000 "C1" (Float64.of_Z 0) "corr-0") exemplo.mundo0)))) =
    clientes (vista exemplo.banco0).
Proof.
  split; [reflexivity|].
  destruct (AutorizarTransacao_invalida_sem_debito 0
              (NewTransacao "tx-0" 1700000000 "C1" (Float64.of_Z 0) "corr-0")
              exemplo.mundo0 ErrValorZero) as [_ [H _]].
  - reflexivity.
  - exact H.
Defined.

Lemma AutorizarTransacao_debitada_sem_registro_99_90 :
  Valida exemplo.t_99_90 = nil /\
  fst (service.AutorizarTransacao 0 exemplo.t_99_90
         (exemplo.mundo {| tabelas := exemplo.tabelas0;
                           roteiro := [exemplo.quieto; exemplo.indisponivel];
                           agora := 1700000000 |})) =
    (Aprovar exemplo.t_99_90, Some (Errorf_w "erro ao salvar transação" (ErroSDK "RequestTimeout"))).
Proof.
  assert (Hv : Valida exemplo.t_99_90 = nil) by (vm_compute; reflexivity).
  split; [exact Hv|].
  destruct (AutorizarTransacao_debitada_sem_registro 0 exemplo.t_99_90
              (exemplo.mundo {| tabelas := exemplo.tabelas0;
                                roteiro := [exemplo.quieto; exemplo.indisponivel];
                                agora := 1700000000 |})
              (Errorf_w "erro ao salvar transação" (ErroSDK "RequestTimeout"))) as [H _].
  - exact Hv.
  - vm_compute. reflexivity.
  - vm_compute. reflexivity.
  - exact H.
Defined.

Lemma AutorizarTransacao_aprovada_99_90 :
  sossegado (banco exemplo.mundo0) /\
  fst (service.AutorizarTransacao 0 exemplo.t_99_90 exemplo.mundo0) =
    (Aprovar exemplo.t_99_90, nil).
Proof.
  split; [reflexivity|].
  destruct (AutorizarTransacao_aprovada 0 exemplo.t_99_90 exemplo.mundo0 exemplo.c1) as [H _].
  - reflexivity.
  - vm_compute. reflexivity.
  - vm_compute. reflexivity.
  - vm_compute. discriminate.
  - vm_compute. reflexivity.
  - exact H.
Defined.

Lemma AutorizarTransacao_limite_insuficiente_200 :
  sossegado (banco exemplo.mundo0) /\
  fst (service.AutorizarTransacao 0
         (NewTransacao "tx-4" 1700000000 "C1" (Float64.of_Z 200) "corr-4") exemplo.mundo0) =
    (Rejeitar (NewTransacao "tx-4" 1700000000 "C1" (Float64.of_Z 200) "corr-4"),
     Some ErrLimiteInsuficiente).
Proof.
  split; [reflexivity|].
  destruct (AutorizarTransacao_limite_insuficiente 0
              (NewTransacao "tx-4" 1700000000 "C1" (Float64.of_Z 200) "corr-4")
              exemplo.mundo0 exemplo.c1) as [H _].
  - reflexivity.
  - vm_compute. reflexivity.
  - vm_compute. reflexivity.
  - vm_compute. reflexivity.
  - vm_compute. reflexivity.
  - exact H.
Defined.

Lemma AutorizarTransacao_cliente_desconhecido_C9 :
  clientes (tabelas (banco exemplo.mundo0)) !! "C9" = None /\
  fst (service.AutorizarTransacao 0
         (NewTransacao "tx-5" 1700000000 "C9" (Float64.of_Z 1) "corr-5") exemplo.mundo0) =
    (Rejeitar (NewTransacao "tx-5" 1700000000 "C9" (Float64.of_Z 1) "corr-5"),
     Some ErrClienteNaoEncontrado).
Proof.
  split; [vm_compute; reflexivity|].
  destruct (AutorizarTransacao_cliente_desconhecido 0
              (NewTransacao "tx-5" 1700000000 "C9" (Float64.of_Z 1) "corr-5")
              exemplo.mundo0) as [H _].
  - reflexivity.
  - vm_compute. reflexivity.
  - vm_compute. reflexivity.
  - vm_compute. reflexivity.
  - exact H.
Defined.

Lemma atender_publica_o_resultado_99_90 :
  pendentes exemplo.mundo0 = [] /\
  Evento_Evento <$> publicados (snd (atender 0 exemplo.t_99_90 exemplo.mundo0)) =
    [EventoTransacaoAprovada].
Proof.
  split; [reflexivity|].
  destruct (atender_publica_o_resultado 0 exemplo.t_99_90 exemplo.mundo0) as [H _].
  - reflexivity.
  - intros ev. reflexivity.
  - rewrite H. vm_compute. reflexivity.
Defined.

Lemma atender_publicacao_recusada_99_90 :
  pendentes (exemplo.mundo_sem_publicador exemplo.banco0) = [] /\
  publicados (snd (atender 0 exemplo.t_99_90 (exemplo.mundo_sem_publicador exemplo.banco0))) = [].
Proof.
  split; [reflexivity|].
  destruct (atender_publicacao_recusada 0 exemplo.t_99_90
              (exemplo.mundo_sem_publicador exemplo.banco0)) as [H _].
  - reflexivity.
  - intros ev. cbn. discriminate.
  - exact H.
Defined.

Lemma AutorizarTransacao_codigo_indisponivel :
  snd (fst (service.AutorizarTransacao 0 exemplo.t_99_90 (exemplo.mundo exemplo.banco_indisponivel))) =
    Some (Errorf_w "erro ao debitar limite do cliente C1" (ErroSDK "RequestTimeout")) /\
  fst (fst (awslambda.categorizeError
              (Errorf_w "erro ao debitar limite do cliente C1" (ErroSDK "RequestTimeout")))) = 500 /\
  Valida exemplo.t_99_90 = nil.
Proof.
  assert (He : snd (fst (service.AutorizarTransacao 0 exemplo.t_99_90
                           (exemplo.mundo exemplo.banco_indisponivel))) =
               Some (Errorf_w "erro ao debitar limite do cliente C1" (ErroSDK "RequestTimeout")))
    by (vm_compute; reflexivity).
  split; [exact He|]. split; [reflexivity|].
  destruct (AutorizarTransacao_codigo 0 exemplo.t_99_90
              (exemplo.mundo exemplo.banco_indisponivel) _ He) as [_ [_ [_ [H _]]]].
  apply H. reflexivity.
Defined.
